(** * Fleet demand assistant: tools and remote handlers

    A shallow embedding of [backend/fleet_tools.py],
    [backend/lambda/weather_lambda.py] and [backend/lambda/flight_lambda.py].

    Python values are an inductive type, dictionaries are association lists
    in insertion order, exceptions are data carried by an error monad, and
    everything outside the repository (the DynamoDB table, the HTTP services,
    the process clock and environment, pandas' numeric kernel) is either a
    small explicit model or a variable of the section that uses it.
    Text is a sequence of code points below 256, and letter case is that of
    the ASCII letters.  Output written by [print] is not modelled. *)

From Stdlib Require Import String Ascii List ZArith Bool Arith Lia Permutation.
From Stdlib Require Import Numbers.DecimalString.
Import ListNotations.

Local Open Scope list_scope.
Local Open Scope string_scope.

(* ===================================================================== *)
(** ** Python: exceptions, values and the builtins the code relies on *)
(* ===================================================================== *)

Module Py.

(** Exception classes the sources raise or catch.  [exn_str] is [str(e)],
    with CPython 3.12 wording (the runtime the stacks deploy). *)
Inductive exn_class :=
| KeyError | AttributeError | TypeError | ValueError | IndexError
| URLError | RequestException | OtherException.

Record exn := Exn { exn_cls : exn_class; exn_str : string }.

(** A computation either returns or raises. *)
Inductive outcome (A : Type) : Type :=
| Return (a : A)
| Raise (e : exn).
Arguments Return {A} a.
Arguments Raise {A} e.

Definition bind {A B} (c : outcome A) (k : A -> outcome B) : outcome B :=
  match c with
  | Return a => k a
  | Raise e => Raise e
  end.

(** [try: c  except <clauses>]: a handler answers [None] when no clause
    matches the exception, which then keeps propagating. *)
Definition try_except {A} (c : outcome A) (h : exn -> option (outcome A))
  : outcome A :=
  match c with
  | Return a => Return a
  | Raise e => match h e with Some r => r | None => Raise e end
  end.

(** [except Exception as e] matches every exception of the model. *)
Definition except_Exception {A} (k : exn -> outcome A) : exn -> option (outcome A) :=
  fun e => Some (k e).

Definition returns {A} (c : outcome A) : Prop := exists a, c = Return a.

Fixpoint mapM {A B} (f : A -> outcome B) (l : list A) : outcome (list B) :=
  match l with
  | [] => Return []
  | x :: xs =>
      bind (f x) (fun y => bind (mapM f xs) (fun ys => Return (y :: ys)))
  end.

(** *** Strings *)

Definition is_upper (c : ascii) : bool :=
  (65 <=? nat_of_ascii c)%nat && (nat_of_ascii c <=? 90)%nat.
Definition is_lower (c : ascii) : bool :=
  (97 <=? nat_of_ascii c)%nat && (nat_of_ascii c <=? 122)%nat.
Definition is_cased (c : ascii) : bool := is_upper c || is_lower c.

Definition to_lower (c : ascii) : ascii :=
  if is_upper c then ascii_of_nat (nat_of_ascii c + 32) else c.
Definition to_upper (c : ascii) : ascii :=
  if is_lower c then ascii_of_nat (nat_of_ascii c - 32) else c.

(** [s.lower()] and [s.upper()] *)
Fixpoint lower (s : string) : string :=
  match s with
  | EmptyString => EmptyString
  | String c s' => String (to_lower c) (lower s')
  end.

Fixpoint upper (s : string) : string :=
  match s with
  | EmptyString => EmptyString
  | String c s' => String (to_upper c) (upper s')
  end.

(** [s.title()]: a cased character is upper-cased when the previous
    character is not cased and lower-cased when it is. *)
Fixpoint title_from (previous_is_cased : bool) (s : string) : string :=
  match s with
  | EmptyString => EmptyString
  | String c s' =>
      String (if previous_is_cased then to_lower c else to_upper c)
             (title_from (is_cased c) s')
  end.

Definition title (s : string) : string := title_from false s.

(** [sub in s] for strings *)
Fixpoint contains (sub s : string) : bool :=
  String.prefix sub s ||
  match s with
  | EmptyString => false
  | String _ s' => contains sub s'
  end.

(** [s.split(sep)] for a non-empty [sep]: occurrences are found left to
    right and do not overlap.  [skip] counts the characters of a matched
    separator still to be dropped, [cur] is the piece being read. *)
Fixpoint split_from (sep s : string) (skip : nat) (cur : string) : list string :=
  match s with
  | EmptyString => [cur]
  | String c s' =>
      match skip with
      | S k => split_from sep s' k cur
      | O =>
          if String.prefix sep s
          then cur :: split_from sep s' (String.length sep - 1) EmptyString
          else split_from sep s' 0 (cur ++ String c EmptyString)
      end
  end.

Definition split (sep s : string) : list string := split_from sep s 0 EmptyString.

(** [sep.join(l)] *)
Fixpoint join (sep : string) (l : list string) : string :=
  match l with
  | [] => EmptyString
  | [x] => x
  | x :: xs => x ++ sep ++ join sep xs
  end.

(** [str(n)] for an [int] *)
Definition str_int (n : Z) : string := NilZero.string_of_int (Z.to_int n).

(** *** Values *)

(** [decimal.Decimal]: the number [dec_coeff * 10 ^ dec_exp]. *)
Record decimal := Decimal { dec_coeff : Z; dec_exp : Z }.

(** A [float] is carried by its [repr]; the code never computes with one. *)
#[warnings="-register-all"]
Inductive pyval :=
| PNone
| PBool (b : bool)
| PInt (n : Z)
| PFloat (repr : string)
| PDec (d : decimal)
| PStr (s : string)
| PList (l : list pyval)
| PDict (d : list (string * pyval)).

Definition dict := list (string * pyval).

Fixpoint lookup {V} (k : string) (d : list (string * V)) : option V :=
  match d with
  | [] => None
  | (k', v) :: d' => if String.eqb k' k then Some v else lookup k d'
  end.

Definition type_name (v : pyval) : string :=
  match v with
  | PNone => "NoneType" | PBool _ => "bool" | PInt _ => "int"
  | PFloat _ => "float" | PDec _ => "decimal.Decimal" | PStr _ => "str"
  | PList _ => "list" | PDict _ => "dict"
  end.

(** Truth value of an object ([if not x]). *)
Definition truthy (v : pyval) : bool :=
  match v with
  | PNone => false
  | PBool b => b
  | PInt n => negb (n =? 0)%Z
  | PFloat r => negb (String.eqb r "0.0" || String.eqb r "-0.0")
  | PDec d => negb (dec_coeff d =? 0)%Z
  | PStr s => negb (String.eqb s EmptyString)
  | PList l => match l with [] => false | _ => true end
  | PDict d => match d with [] => false | _ => true end
  end.

Definition no_attribute {A} (v : pyval) (attr : string) : outcome A :=
  Raise (Exn AttributeError
    ("'" ++ type_name v ++ "' object has no attribute '" ++ attr ++ "'")).

(** [d.get(k, default)]; only a [dict] has the method. *)
Definition get (v : pyval) (k : string) (default : pyval) : outcome pyval :=
  match v with
  | PDict d => Return (match lookup k d with Some x => x | None => default end)
  | _ => no_attribute v "get"
  end.

(** [v[k]] with a string key *)
Definition getitem (v : pyval) (k : string) : outcome pyval :=
  match v with
  | PDict d =>
      match lookup k d with
      | Some x => Return x
      | None => Raise (Exn KeyError ("'" ++ k ++ "'"))
      end
  | PList _ => Raise (Exn TypeError "list indices must be integers or slices, not str")
  | PStr _ => Raise (Exn TypeError "string indices must be integers, not 'str'")
  | _ => Raise (Exn TypeError ("'" ++ type_name v ++ "' object is not subscriptable"))
  end.

(** [v[i]] with a non-negative integer index *)
Definition getindex (v : pyval) (i : nat) : outcome pyval :=
  match v with
  | PList l =>
      match nth_error l i with
      | Some x => Return x
      | None => Raise (Exn IndexError "list index out of range")
      end
  | PStr s =>
      match String.get i s with
      | Some c => Return (PStr (String c EmptyString))
      | None => Raise (Exn IndexError "string index out of range")
      end
  | PDict _ => Raise (Exn KeyError (str_int (Z.of_nat i)))
  | _ => Raise (Exn TypeError ("'" ++ type_name v ++ "' object is not subscriptable"))
  end.

(** [k in v] with a string [k] *)
Definition has (k : string) (v : pyval) : outcome bool :=
  match v with
  | PDict d => Return (match lookup k d with Some _ => true | None => false end)
  | PList l =>
      Return (existsb (fun x => match x with PStr s => String.eqb s k | _ => false end) l)
  | PStr s => Return (contains k s)
  | _ => Raise (Exn TypeError ("argument of type '" ++ type_name v ++ "' is not iterable"))
  end.

(** [len(v)] *)
Definition len (v : pyval) : outcome nat :=
  match v with
  | PList l => Return (List.length l)
  | PDict d => Return (List.length d)
  | PStr s => Return (String.length s)
  | _ => Raise (Exn TypeError ("object of type '" ++ type_name v ++ "' has no len()"))
  end.

(** [v.upper()]; only a [str] has the method. *)
Definition upper_method (v : pyval) : outcome string :=
  match v with
  | PStr s => Return (upper s)
  | _ => no_attribute v "upper"
  end.

(** [for x in v]: the items a loop over [v] visits. *)
Definition iterate (v : pyval) : outcome (list pyval) :=
  match v with
  | PList l => Return l
  | PDict d => Return (map (fun kv => PStr (fst kv)) d)
  | PStr s => Return (map (fun c => PStr (String c EmptyString)) (list_ascii_of_string s))
  | _ => Raise (Exn TypeError ("'" ++ type_name v ++ "' object is not iterable"))
  end.

(** [int(d)] for a [Decimal]: truncation towards zero. *)
Definition int_of_decimal (d : decimal) : Z :=
  if (0 <=? dec_exp d)%Z then (dec_coeff d * 10 ^ dec_exp d)%Z
  else Z.quot (dec_coeff d) (10 ^ (- dec_exp d)).

(** *** [json.dumps] *)

Definition dquote : string := String (ascii_of_nat 34) EmptyString.
Definition backslash : string := String (ascii_of_nat 92) EmptyString.

Definition hex_digit (n : nat) : ascii :=
  if (n <? 10)%nat then ascii_of_nat (48 + n) else ascii_of_nat (87 + n).

(** One character of a JSON string with [ensure_ascii]: everything outside
    [' '..'~'] is escaped; characters are code points below 256. *)
Definition json_escape_char (c : ascii) : string :=
  let n := nat_of_ascii c in
  if (n =? 34)%nat then backslash ++ dquote
  else if (n =? 92)%nat then backslash ++ backslash
  else if (n =? 10)%nat then backslash ++ "n"
  else if (n =? 13)%nat then backslash ++ "r"
  else if (n =? 9)%nat then backslash ++ "t"
  else if (n =? 8)%nat then backslash ++ "b"
  else if (n =? 12)%nat then backslash ++ "f"
  else if (32 <=? n)%nat && (n <=? 126)%nat then String c EmptyString
  else backslash ++ "u00"
       ++ String (hex_digit (n / 16)) (String (hex_digit (n mod 16)) EmptyString).

Fixpoint json_escape (s : string) : string :=
  match s with
  | EmptyString => EmptyString
  | String c s' => json_escape_char c ++ json_escape s'
  end.

Definition json_string (s : string) : string := dquote ++ json_escape s ++ dquote.

Definition json_float (r : string) : string :=
  if String.eqb r "nan" then "NaN"
  else if String.eqb r "inf" then "Infinity"
  else if String.eqb r "-inf" then "-Infinity"
  else r.

Fixpoint spaces (n : nat) : string :=
  match n with O => EmptyString | S k => String " " (spaces k) end.

(** The text between two items and around the items of a container at
    nesting depth [level]: with [indent] every item starts a new line. *)
Definition newline_indent (indent : option nat) (level : nat) : string :=
  match indent with
  | None => EmptyString
  | Some w => String (ascii_of_nat 10) (spaces (w * level))
  end.

Definition item_separator (indent : option nat) (level : nat) : string :=
  match indent with
  | None => ", "
  | Some _ => "," ++ newline_indent indent level
  end.

Definition wrap_items (opening closing : string) (indent : option nat)
    (level : nat) (items : list string) : string :=
  match items with
  | [] => opening ++ closing
  | _ => opening ++ newline_indent indent (S level)
         ++ join (item_separator indent (S level)) items
         ++ newline_indent indent level ++ closing
  end.

(** The encoder; [on_decimal] says what happens at an object json cannot
    serialise itself (in this model: a [Decimal]). *)
Fixpoint json_encode (on_decimal : decimal -> outcome string)
    (indent : option nat) (level : nat) (v : pyval) : outcome string :=
  match v with
  | PNone => Return "null"
  | PBool b => Return (if b then "true" else "false")
  | PInt n => Return (str_int n)
  | PFloat r => Return (json_float r)
  | PDec d => on_decimal d
  | PStr s => Return (json_string s)
  | PList l =>
      bind
        ((fix items (l : list pyval) : outcome (list string) :=
            match l with
            | [] => Return []
            | x :: xs =>
                bind (json_encode on_decimal indent (S level) x) (fun s =>
                bind (items xs) (fun ss => Return (s :: ss)))
            end) l)
        (fun ss => Return (wrap_items "[" "]" indent level ss))
  | PDict d =>
      bind
        ((fix items (d : list (string * pyval)) : outcome (list string) :=
            match d with
            | [] => Return []
            | (k, x) :: xs =>
                bind (json_encode on_decimal indent (S level) x) (fun s =>
                bind (items xs) (fun ss =>
                Return ((json_string k ++ ": " ++ s) :: ss)))
            end) d)
        (fun ss => Return (wrap_items "{" "}" indent level ss))
  end.

Definition not_serializable (v : pyval) : exn :=
  Exn TypeError ("Object of type " ++
    match v with PDec _ => "Decimal" | _ => type_name v end
    ++ " is not JSON serializable").

(** [json.dumps(v, default=..., indent=...)].  The object a [default] hook
    returns is encoded in turn; the hook of this repository returns a
    [float], so that object is encoded without a further hook call. *)
Definition json_dumps (default : option (pyval -> outcome pyval))
    (indent : option nat) (v : pyval) : outcome string :=
  let plain := json_encode (fun d => Raise (not_serializable (PDec d))) in
  match default with
  | None => plain indent 0%nat v
  | Some f =>
      json_encode (fun d => bind (f (PDec d)) (fun v' => plain indent 0%nat v'))
                  indent 0%nat v
  end.

(** Induction on values through the lists and dictionaries they nest. *)
Section PyvalInduction.
Variable P : pyval -> Prop.
Hypothesis HNone : P PNone.
Hypothesis HBool : forall b, P (PBool b).
Hypothesis HInt : forall n, P (PInt n).
Hypothesis HFloat : forall r, P (PFloat r).
Hypothesis HDec : forall d, P (PDec d).
Hypothesis HStr : forall s, P (PStr s).
Hypothesis HList : forall l, Forall P l -> P (PList l).
Hypothesis HDict : forall d, Forall (fun kv => P (snd kv)) d -> P (PDict d).

Fixpoint pyval_nested_ind (v : pyval) : P v :=
  match v with
  | PNone => HNone
  | PBool b => HBool b
  | PInt n => HInt n
  | PFloat r => HFloat r
  | PDec d => HDec d
  | PStr s => HStr s
  | PList l =>
      HList l ((fix all (l : list pyval) : Forall P l :=
                  match l with
                  | [] => Forall_nil P
                  | x :: xs => Forall_cons x (pyval_nested_ind x) (all xs)
                  end) l)
  | PDict d =>
      HDict d ((fix all (d : list (string * pyval)) : Forall (fun kv => P (snd kv)) d :=
                  match d with
                  | [] => Forall_nil _
                  | kv :: xs =>
                      Forall_cons (P := fun kv => P (snd kv)) kv
                        (pyval_nested_ind (snd kv)) (all xs)
                  end) d)
  end.
End PyvalInduction.

End Py.

Declare Scope py_scope.
Delimit Scope py_scope with py.
Notation "x <- c ;; k" := (Py.bind c (fun x => k))
  (at level 61, c at next level, right associativity) : py_scope.
Notation "c ;;; k" := (Py.bind c (fun _ => k))
  (at level 61, right associativity) : py_scope.

Local Open Scope py_scope.

(* ===================================================================== *)
(** ** The remote invocation surface shared by both handlers *)
(* ===================================================================== *)

Module Gateway.
Import Py.

(** The Lambda context.  [client_context] may be [None], and so may its
    [custom] mapping; the gateway stores string properties in it. *)
Record client_context := ClientContext { custom : option (list (string * string)) }.
Record lambda_context := LambdaContext { client_context_of : option client_context }.

(** The event is the mapping of arguments ([Dict[str, Any]]). *)
Definition event := dict.

(** The fixed response envelope. *)
Record response := Response { statusCode : Z; body : string }.

(** A context whose custom properties name the invoked tool. *)
Definition context_for (tool_identifier : string) : lambda_context :=
  LambdaContext (Some (ClientContext
    (Some [("bedrockAgentCoreToolName", tool_identifier)]))).

(** The tool identifier a context carries, if any. *)
Definition tool_identifier (context : lambda_context) : option string :=
  match client_context_of context with
  | Some cc =>
      match custom cc with
      | Some d => lookup "bedrockAgentCoreToolName" d
      | None => None
      end
  | None => None
  end.

(** The document of an error body, and the text of that body. *)
Definition error_document (message : string) : pyval := PDict [("error", PStr message)].

Definition error_body (message : string) : string :=
  "{" ++ json_string "error" ++ ": " ++ json_string message ++ "}".


(** Attribute access on the context objects. *)
Definition attr_client_context (context : lambda_context) : outcome client_context :=
  match client_context_of context with
  | Some cc => Return cc
  | None => Raise (Exn AttributeError "'NoneType' object has no attribute 'custom'")
  end.

Definition attr_custom_get (cc : client_context) (k default : string) : outcome string :=
  match custom cc with
  | Some d => Return (match lookup k d with Some x => x | None => default end)
  | None => Raise (Exn AttributeError "'NoneType' object has no attribute 'get'")
  end.

(** [l[1]] on the list a [split] returns. *)
Definition second (l : list string) : outcome string :=
  match nth_error l 1 with
  | Some x => Return x
  | None => Raise (Exn IndexError "list index out of range")
  end.

(** The clauses of [except (AttributeError, KeyError)]. *)
Definition except_attribute_or_key {A} (k : outcome A) (e : exn) : option (outcome A) :=
  match exn_cls e with
  | AttributeError | KeyError => Some k
  | _ => None
  end.

(** [int(v)]; the parsers of text and of floats are the interpreter's. *)
Definition int_ (int_of_str int_of_float : string -> outcome Z) (v : pyval) : outcome Z :=
  match v with
  | PInt n => Return n
  | PBool b => Return (if b then 1 else 0)%Z
  | PDec d => Return (int_of_decimal d)
  | PStr s => int_of_str s
  | PFloat r => int_of_float r
  | _ => Raise (Exn TypeError
           ("int() argument must be a string, a bytes-like object or a real number, not '"
            ++ type_name v ++ "'"))
  end.

End Gateway.

(* ===================================================================== *)
(** ** [lambda/weather_lambda.py] *)
(* ===================================================================== *)

Module WeatherLambda.
Import Py Gateway.

(** The two calls the tool makes to Open-Meteo, by what the URL carries. *)
Inductive weather_request :=
| GeocodeSearch (name : string)
| DailyForecast (latitude longitude : pyval) (forecast_days : Z).

Definition get_tool_name (context : lambda_context) : outcome string :=
  try_except
    (cc <- attr_client_context context ;;
     extended_tool_name <- attr_custom_get cc "bedrockAgentCoreToolName" EmptyString ;;
     if contains "___" extended_tool_name
     then second (split "___" extended_tool_name)
     else Return extended_tool_name)
    (except_attribute_or_key (Return EmptyString)).

Definition get_named_parameter (event : event) (name : string) : pyval :=
  match lookup name event with Some v => v | None => PNone end.

(** [urllib.parse.quote] accepts text only. *)
Definition quote (location : pyval) : outcome string :=
  match location with
  | PStr s => Return s
  | _ => Raise (Exn TypeError "quote_from_bytes() expected bytes")
  end.

Section Tool.

(** [urlopen] on the request, then [json.loads] of the decoded answer. *)
Variable urlopen_json : weather_request -> outcome pyval.
Variables int_of_str int_of_float : string -> outcome Z.

Definition forecast_day (daily : pyval) (i : nat) : outcome pyval :=
  date <- (x <- getitem daily "time" ;; getindex x i) ;;
  temp_max <- (x <- getitem daily "temperature_2m_max" ;; getindex x i) ;;
  temp_min <- (x <- getitem daily "temperature_2m_min" ;; getindex x i) ;;
  precipitation <- (x <- getitem daily "precipitation_sum" ;; getindex x i) ;;
  probability <- (x <- getitem daily "precipitation_probability_max" ;; getindex x i) ;;
  code <- (x <- getitem daily "weathercode" ;; getindex x i) ;;
  Return (PDict [("date", date); ("temp_max_f", temp_max); ("temp_min_f", temp_min);
                 ("precipitation_mm", precipitation);
                 ("precipitation_probability", probability);
                 ("weather_code", code)]).

Definition get_weather_forecast_try (location : pyval) (days : Z) : outcome pyval :=
  name <- quote location ;;
  geo_data <- urlopen_json (GeocodeSearch name) ;;
  results <- get geo_data "results" PNone ;;
  if negb (truthy results)
  then Return (PDict [("error", PStr ("Location '" ++ name ++ "' not found"));
                      ("forecast", PList [])])
  else
    result <- (r <- getitem geo_data "results" ;; getindex r 0) ;;
    lat <- getitem result "latitude" ;;
    lon <- getitem result "longitude" ;;
    location_name <- getitem result "name" ;;
    weather_data <- urlopen_json (DailyForecast lat lon (Z.min days 16)) ;;
    daily <- getitem weather_data "daily" ;;
    n <- (t <- getitem daily "time" ;; len t) ;;
    forecast <- mapM (forecast_day daily) (seq 0 n) ;;
    Return (PDict [("location", location_name); ("latitude", lat); ("longitude", lon);
                   ("forecast_days", PInt (Z.of_nat (List.length forecast)));
                   ("forecast", PList forecast)]).

Definition get_weather_forecast (location : pyval) (days : Z) : outcome pyval :=
  try_except (get_weather_forecast_try location days)
    (fun e =>
       match exn_cls e with
       | URLError =>
           Some (Return (PDict [("error", PStr ("Failed to fetch weather: " ++ exn_str e));
                                ("forecast", PList [])]))
       | _ =>
           Some (Return (PDict [("error", PStr ("Error: " ++ exn_str e));
                                ("forecast", PList [])]))
       end).

(** The body of the handler's [try]. *)
Definition lambda_handler_try (event : event) (context : lambda_context)
  : outcome response :=
  _ <- json_dumps None None (PDict event) ;;
  tool_name <- get_tool_name context ;;
  if String.eqb tool_name "get_weather_forecast" then
    let location := get_named_parameter event "location" in
    let days := get_named_parameter event "days" in
    if negb (truthy location) then
      body <- json_dumps None None
                (PDict [("error", PStr "location parameter is required")]) ;;
      Return (Response 400 body)
    else
      days <- match days with
              | PNone => Return 7%Z
              | _ => int_ int_of_str int_of_float days
              end ;;
      weather_data <- get_weather_forecast location days ;;
      body <- json_dumps None None weather_data ;;
      Return (Response 200 body)
  else
    body <- json_dumps None None
              (PDict [("error", PStr ("Unknown tool: " ++ tool_name))]) ;;
    Return (Response 400 body).

Definition lambda_handler (event : event) (context : lambda_context)
  : outcome response :=
  try_except (lambda_handler_try event context)
    (except_Exception (fun e =>
       body <- json_dumps None None
                 (PDict [("error", PStr ("Internal error: " ++ exn_str e))]) ;;
       Return (Response 500 body))).

End Tool.
End WeatherLambda.

(* ===================================================================== *)
(** ** [lambda/flight_lambda.py] *)
(* ===================================================================== *)

Module FlightLambda.
Import Py Gateway.

(** The call to AviationStack: key, arrival airport and result limit. *)
Record flight_request :=
  FlightRequest { access_key : string; arr_iata : string; limit : Z }.

Definition get_tool_name (context : lambda_context) : outcome string :=
  try_except
    (cc <- attr_client_context context ;;
     extended_tool_name <- attr_custom_get cc "bedrockAgentCoreToolName" EmptyString ;;
     if contains "___" extended_tool_name
     then second (split "___" extended_tool_name)
     else Return extended_tool_name)
    (except_attribute_or_key (Return EmptyString)).

Definition get_named_parameter (event : event) (name : string) : pyval :=
  match lookup name event with Some v => v | None => PNone end.

Section Tool.

(** [os.environ.get("AVIATIONSTACK_API_KEY")] *)
Variable api_key : option string.
Variable urlopen_json : flight_request -> outcome pyval.
(** [str(v)], used where a value is formatted into a message. *)
Variable str_ : pyval -> string.

Definition arrival (flight : pyval) : outcome pyval :=
  flight_number <- (x <- get flight "flight" (PDict []) ;; get x "iata" (PStr "N/A")) ;;
  airline <- (x <- get flight "airline" (PDict []) ;; get x "name" (PStr "N/A")) ;;
  departure_airport <-
    (x <- get flight "departure" (PDict []) ;; get x "iata" (PStr "N/A")) ;;
  departure_city <-
    (x <- get flight "departure" (PDict []) ;; get x "airport" (PStr "N/A")) ;;
  arrival_time <-
    (x <- get flight "arrival" (PDict []) ;; get x "scheduled" (PStr "N/A")) ;;
  status <- get flight "flight_status" (PStr "N/A") ;;
  Return (PDict [("flight_number", flight_number); ("airline", airline);
                 ("departure_airport", departure_airport);
                 ("departure_city", departure_city);
                 ("arrival_time", arrival_time); ("status", status)]).

Definition get_flight_traffic_try (key : string) (airport_code : pyval)
  : outcome pyval :=
  code <- upper_method airport_code ;;
  data <- urlopen_json (FlightRequest key code 10) ;;
  failed <- has "error" data ;;
  if (failed : bool) then
    info <- (err <- getitem data "error" ;; get err "info" (PStr "Unknown error")) ;;
    code <- upper_method airport_code ;;
    Return (PDict [("error", PStr ("API Error: " ++ str_ info));
                   ("airport", PStr code); ("flights", PList [])])
  else
    flights <- get data "data" (PList []) ;;
    items <- iterate flights ;;
    arrivals <- mapM arrival items ;;
    code <- upper_method airport_code ;;
    Return (PDict [("airport", PStr code);
                   ("total_arrivals_shown", PInt (Z.of_nat (List.length arrivals)));
                   ("arrivals", PList arrivals);
                   ("note", PStr "Showing recent/upcoming arrivals. High arrival count indicates increased rental demand.")]).

Definition key_configured (k : option string) : option string :=
  match k with
  | None => None
  | Some k =>
      if String.eqb k EmptyString || String.eqb k "your_aviationstack_api_key_here"
      then None else Some k
  end.

Definition get_flight_traffic (airport_code : pyval) : outcome pyval :=
  match key_configured api_key with
  | None =>
      code <- upper_method airport_code ;;
      Return (PDict [("error", PStr "AviationStack API key not configured. Please add AVIATIONSTACK_API_KEY to Lambda environment");
                     ("airport", PStr code);
                     ("note", PStr "Get a free API key at https://aviationstack.com/");
                     ("flights", PList [])])
  | Some key =>
      try_except (get_flight_traffic_try key airport_code)
        (fun e =>
           match exn_cls e with
           | URLError =>
               Some (code <- upper_method airport_code ;;
                     Return (PDict [("error", PStr ("Failed to fetch flight data: " ++ exn_str e));
                                    ("airport", PStr code); ("flights", PList [])]))
           | _ =>
               Some (code <- upper_method airport_code ;;
                     Return (PDict [("error", PStr ("Error: " ++ exn_str e));
                                    ("airport", PStr code); ("flights", PList [])]))
           end)
  end.

(** The body of the handler's [try]. *)
Definition lambda_handler_try (event : event) (context : lambda_context)
  : outcome response :=
  _ <- json_dumps None None (PDict event) ;;
  tool_name <- get_tool_name context ;;
  if String.eqb tool_name "get_flight_traffic" then
    let airport_code := get_named_parameter event "airport_code" in
    if negb (truthy airport_code) then
      body <- json_dumps None None
                (PDict [("error", PStr "airport_code parameter is required")]) ;;
      Return (Response 400 body)
    else
      flight_data <- get_flight_traffic airport_code ;;
      body <- json_dumps None None flight_data ;;
      Return (Response 200 body)
  else
    body <- json_dumps None None
              (PDict [("error", PStr ("Unknown tool: " ++ tool_name))]) ;;
    Return (Response 400 body).

Definition lambda_handler (event : event) (context : lambda_context)
  : outcome response :=
  try_except (lambda_handler_try event context)
    (except_Exception (fun e =>
       body <- json_dumps None None
                 (PDict [("error", PStr ("Internal error: " ++ exn_str e))]) ;;
       Return (Response 500 body))).

End Tool.
End FlightLambda.

(* ===================================================================== *)
(** ** [fleet_tools.py]: the fleet store and the fleet tools *)
(* ===================================================================== *)

Module FleetTools.
Import Py.

(** *** The store

    [FLEET_TABLE] is a DynamoDB table of items (dictionaries of attributes).
    A call either fails as a whole or answers from the items.  [zip_code],
    [status] and [location] key the table's indexes with type STRING, so an
    item holds a string there or lacks the attribute.  The order of [items]
    stands for the order in which the store returns them. *)
Record fleet_table := FleetTable { items : list dict; outage : option exn }.

(** Conditions built with [Key(..)] and [Attr(..)]: [eq], [contains], [&]. *)
Inductive condition :=
| Eq (name value : string)
| Contains (name operand : string)
| And (a b : condition).

Fixpoint holds (c : condition) (item : dict) : bool :=
  match c with
  | Eq name value =>
      match lookup name item with
      | Some (PStr s) => String.eqb s value
      | _ => false
      end
  | Contains name operand =>
      match lookup name item with
      | Some (PStr s) => contains operand s
      | Some (PList l) =>
          existsb (fun x => match x with PStr s => String.eqb s operand | _ => false end) l
      | _ => false
      end
  | And a b => holds a item && holds b item
  end.

(** What a query or scan answers. *)
Record response := Response { Items : option (list dict) }.

Definition response_get_Items (r : response) : list dict :=
  match Items r with Some l => l | None => [] end.

(** An index holds the items that carry both of its key attributes. *)
Definition in_zip_code_index (item : dict) : bool :=
  match lookup "zip_code" item, lookup "status" item with
  | Some (PStr _), Some (PStr _) => true
  | _, _ => false
  end.

(** [FLEET_TABLE.query(IndexName='zip_code-index', KeyConditionExpression=k)] *)
Definition query (t : fleet_table) (k : condition) : outcome response :=
  match outage t with
  | Some e => Raise e
  | None =>
      Return (Response (Some (filter (holds k) (filter in_zip_code_index (items t)))))
  end.

(** [FLEET_TABLE.scan(FilterExpression=f, Limit=n)]: [Limit] bounds the
    items the scan evaluates, the filter is applied to those. *)
Definition scan (t : fleet_table) (f : option condition) (Limit : nat)
  : outcome response :=
  match outage t with
  | Some e => Raise e
  | None =>
      let evaluated := firstn Limit (items t) in
      Return (Response (Some (match f with
                              | Some c => filter (holds c) evaluated
                              | None => evaluated
                              end)))
  end.

(** Truth value of an optional string argument ([if make:]). *)
Definition given (a : option string) : option string :=
  match a with
  | Some s => if String.eqb s EmptyString then None else Some s
  | None => None
  end.

(** *** pandas *)

Definition nan : pyval := PFloat "nan".

(** [df[name]] for [df = pd.DataFrame(vehicles)]: the column exists when
    some record has the key; records without it contribute NaN. *)
Definition column (name : string) (vehicles : list dict) : outcome (list pyval) :=
  if existsb (fun v => match lookup name v with Some _ => true | None => false end) vehicles
  then Return (map (fun v => match lookup name v with Some x => x | None => nan end) vehicles)
  else Raise (Exn KeyError ("'" ++ name ++ "'")).

(** [len(df[df[name] == value])] given the column. *)
Definition count_equal (col : list pyval) (value : string) : nat :=
  List.length (filter (fun x => match x with PStr s => String.eqb s value | _ => false end) col).

Section Tools.

(** The module-level table handle. *)
Variable FLEET_TABLE : fleet_table.
(** [repr(float(d))] for a [Decimal]. *)
Variable float_ : decimal -> string.
(** [Series.mean()] and [Series.value_counts().to_dict()] on a column, and
    the builtin [round]: pandas and the interpreter, not this repository. *)
Variable series_mean : list pyval -> outcome pyval.
Variable value_counts_to_dict : list pyval -> outcome pyval.
Variable round_ : pyval -> Z -> outcome pyval.

Definition decimal_default (obj : pyval) : outcome pyval :=
  match obj with
  | PDec d => Return (PFloat (float_ d))
  | _ => Raise (Exn TypeError EmptyString)
  end.

(** The handler of [_search_by_zip] catches every exception, so the call
    always produces a list; likewise for [_search_vehicles] below. *)
Definition _search_by_zip (zip_code : string) (status : option string) : list dict :=
  match
    try_except
      (response <-
         match given status with
         | Some st => query FLEET_TABLE (And (Eq "zip_code" zip_code) (Eq "status" st))
         | None => query FLEET_TABLE (Eq "zip_code" zip_code)
         end ;;
       Return (response_get_Items response))
      (except_Exception (fun _ => Return []))
  with
  | Return l => l
  | Raise _ => []
  end.

Definition _get_summary (zip_code : string) : outcome pyval :=
  let vehicles := _search_by_zip zip_code None in
  match vehicles with
  | [] => Return (PDict [("error", PStr ("No vehicles found for " ++ zip_code))])
  | first :: _ =>
      location <- getitem (PDict first) "location" ;;
      available <- (c <- column "status" vehicles ;; Return (count_equal c "available")) ;;
      rented <- (c <- column "status" vehicles ;; Return (count_equal c "rented")) ;;
      maintenance <- (c <- column "status" vehicles ;; Return (count_equal c "maintenance")) ;;
      categories <- (c <- column "category" vehicles ;; value_counts_to_dict c) ;;
      avg_daily_rate <- (c <- column "daily_rate" vehicles ;;
                         m <- series_mean c ;; round_ m 2) ;;
      Return (PDict [("zip_code", PStr zip_code);
                     ("location", location);
                     ("total_vehicles", PInt (Z.of_nat (List.length vehicles)));
                     ("available", PInt (Z.of_nat available));
                     ("rented", PInt (Z.of_nat rented));
                     ("maintenance", PInt (Z.of_nat maintenance));
                     ("categories", categories);
                     ("avg_daily_rate", avg_daily_rate)])
  end.

Definition filter_expressions (make model category status : option string)
  : list condition :=
  List.concat
    [match given make with Some m => [Contains "make" (title m)] | None => [] end;
     match given model with Some m => [Contains "model" (title m)] | None => [] end;
     match given category with Some c => [Eq "category" (lower c)] | None => [] end;
     match given status with Some st => [Eq "status" st] | None => [] end].

Definition _search_vehicles (make model category status : option string)
  : list dict :=
  match
    try_except
      (response <-
         match filter_expressions make model category status with
         | first :: rest => scan FLEET_TABLE (Some (fold_left And rest first)) 100
         | [] => scan FLEET_TABLE None 100
         end ;;
       Return (response_get_Items response))
      (except_Exception (fun _ => Return []))
  with
  | Return l => l
  | Raise _ => []
  end.

Definition vehicles_value (vehicles : list dict) : pyval := PList (map PDict vehicles).

Definition search_fleet_by_zip (zip_code : string) (status : option string)
  : outcome string :=
  let vehicles := _search_by_zip zip_code status in
  match vehicles with
  | [] =>
      json_dumps None None
        (PDict [("message", PStr ("No vehicles found for " ++ zip_code));
                ("vehicles", PList [])])
  | first :: _ =>
      location <- getitem (PDict first) "location" ;;
      json_dumps (Some decimal_default) None
        (PDict [("zip_code", PStr zip_code);
                ("location", location);
                ("count", PInt (Z.of_nat (List.length vehicles)));
                ("vehicles", vehicles_value vehicles)])
  end.

(** [locations] is keyed by the location of each vehicle, a string in every
    item that has the attribute (it keys the location-index).  The model
    stops with a [TypeError] at a location of another type. *)
Definition location_of (v : dict) : outcome string :=
  match lookup "location" v with
  | Some (PStr loc) => Return loc
  | Some x => Raise (Exn TypeError ("unhashable type: '" ++ type_name x ++ "'"))
  | None => Raise (Exn KeyError "'location'")
  end.

(** [locations[loc].append(v)], after [locations[loc] = []] for a new key:
    a new key goes last, an existing key keeps its place. *)
Fixpoint append_at (loc : string) (v : dict) (locations : list (string * list dict))
  : list (string * list dict) :=
  match locations with
  | [] => [(loc, [v])]
  | (k, vs) :: rest =>
      if String.eqb k loc then (k, (vs ++ [v])%list) :: rest
      else (k, vs) :: append_at loc v rest
  end.

(** The grouping loop, from the dictionary built so far. *)
Fixpoint group_by_location (vehicles : list dict) (locations : list (string * list dict))
  : outcome (list (string * list dict)) :=
  match vehicles with
  | [] => Return locations
  | v :: rest =>
      loc <- location_of v ;;
      group_by_location rest (append_at loc v locations)
  end.

Definition search_terms (make model category status : option string) : list string :=
  List.concat
    [match given make with Some m => ["make: " ++ m] | None => [] end;
     match given model with Some m => ["model: " ++ m] | None => [] end;
     match given category with Some c => ["category: " ++ c] | None => [] end;
     match given status with Some st => ["status: " ++ st] | None => [] end].

Definition by_location_value (locations : list (string * list dict)) : pyval :=
  PDict (map (fun kv => (fst kv, vehicles_value (snd kv))) locations).

Definition search_vehicles_general (make model category status : option string)
  : outcome string :=
  let vehicles := _search_vehicles make model category status in
  match vehicles with
  | [] =>
      json_dumps None None
        (PDict [("message", PStr ("No vehicles found matching "
                   ++ join ", " (search_terms make model category status)));
                ("vehicles", PList [])])
  | _ =>
      locations <- group_by_location vehicles [] ;;
      json_dumps (Some decimal_default) None
        (PDict [("count", PInt (Z.of_nat (List.length vehicles)));
                ("locations_found", PInt (Z.of_nat (List.length locations)));
                ("vehicles", vehicles_value vehicles);
                ("by_location", by_location_value locations)])
  end.

Definition get_fleet_summary (zip_code : string) : outcome string :=
  summary <- _get_summary zip_code ;;
  json_dumps (Some decimal_default) None summary.

(** The helpers exported for direct use. *)
Definition search_by_zip (zip_code : string) (status : option string) : list dict :=
  _search_by_zip zip_code status.

Definition get_summary (zip_code : string) : outcome pyval := _get_summary zip_code.

End Tools.
End FleetTools.

(* ===================================================================== *)
(** ** [fleet_tools.py]: the holiday and local-event tools *)
(* ===================================================================== *)

Module SignalTools.
Import Py.
Local Open Scope Z_scope.

(** *** [datetime]

    A naive [datetime] to the second, in the proleptic Gregorian calendar. *)
Record datetime := DateTime
  { year : Z; month : Z; day : Z; hour : Z; minute : Z; second : Z }.

(** Day number of a civil date (day 0 is 1970-01-01) and back. *)
Definition days_from_civil (y m d : Z) : Z :=
  let y := if m <=? 2 then y - 1 else y in
  let era := y / 400 in
  let yoe := y - era * 400 in
  let doy := (153 * (if 2 <? m then m - 3 else m + 9) + 2) / 5 + d - 1 in
  let doe := yoe * 365 + yoe / 4 - yoe / 100 + doy in
  era * 146097 + doe - 719468.

Definition civil_from_days (z : Z) : Z * Z * Z :=
  let z := z + 719468 in
  let era := z / 146097 in
  let doe := z - era * 146097 in
  let yoe := (doe - doe / 1460 + doe / 36524 - doe / 146096) / 365 in
  let doy := doe - (365 * yoe + yoe / 4 - yoe / 100) in
  let mp := (5 * doy + 2) / 153 in
  let d := doy - (153 * mp + 2) / 5 + 1 in
  let m := if mp <? 10 then mp + 3 else mp - 9 in
  (yoe + era * 400 + (if m <=? 2 then 1 else 0), m, d).

(** [dt + pd.Timedelta(days=n)]: the time of day is kept. *)
Definition add_days (dt : datetime) (n : Z) : datetime :=
  let '(y, m, d) := civil_from_days (days_from_civil (year dt) (month dt) (day dt) + n) in
  DateTime y m d (hour dt) (minute dt) (second dt).

(** A number on at least [width] digits, zero-filled. *)
Definition zero_fill (width : nat) (n : Z) : string :=
  let digits := str_int n in
  String.concat EmptyString (repeat "0" (width - String.length digits)%nat) ++ digits.

(** [dt.strftime("%Y-%m-%dT%H:%M:%SZ")], for years of four digits. *)
Definition strftime_iso_z (dt : datetime) : string :=
  zero_fill 4%nat (year dt) ++ "-" ++ zero_fill 2%nat (month dt) ++ "-" ++ zero_fill 2%nat (day dt)
  ++ "T" ++ zero_fill 2%nat (hour dt) ++ ":" ++ zero_fill 2%nat (minute dt) ++ ":"
  ++ zero_fill 2%nat (second dt) ++ "Z".

(** *** The requests *)

(** The query parameters sent to the Ticketmaster Discovery API. *)
Record events_request := EventsRequest
  { apikey : string; postalCode : string; countryCode : string;
    startDateTime : string; endDateTime : string; size : Z; sort : string }.

Section Tools.

(** [os.getenv("TICKETMASTER_API_KEY")] *)
Variable TICKETMASTER_API_KEY : option string.
(** The [n]-th reading of [datetime.now()] during one call. *)
Variable now : nat -> datetime.
(** [requests.get], [raise_for_status] and [response.json()] in one step;
    a failure of the first two is a [RequestException]. *)
Variable requests_get_events : events_request -> outcome pyval.
Variable requests_get_holidays : Z -> outcome pyval.
(** [datetime.fromisoformat(text).month] *)
Variable fromisoformat_month : string -> outcome Z.

Definition key_configured (k : option string) : option string :=
  match k with
  | Some k => if String.eqb k EmptyString then None else Some k
  | None => None
  end.

(** [startDateTime] and [endDateTime] of the query. *)
Definition date_range (start_date end_date : option string) : string * string :=
  let start := match start_date with
               | None => strftime_iso_z (now 0%nat)
               | Some d => d ++ "T00:00:00Z"
               end in
  let reads := match start_date with None => 1%nat | Some _ => 0%nat end in
  let stop := match end_date with
              | None =>
                  let end_dt := add_days (now reads) 30 in
                  strftime_iso_z end_dt
              | Some d => d ++ "T23:59:59Z"
              end in
  (start, stop).

Definition venue_of (event : pyval) : outcome pyval :=
  embedded <- has "_embedded" event ;;
  with_venues <- (if (embedded : bool)
                  then (e <- getitem event "_embedded" ;; has "venues" e)
                  else Return false) ;;
  if (with_venues : bool) then
    venue <- (e <- getitem event "_embedded" ;;
              vs <- getitem e "venues" ;; getindex vs 0%nat) ;;
    name <- get venue "name" (PStr "Unknown") ;;
    city <- (c <- get venue "city" (PDict []) ;; get c "name" (PStr "Unknown")) ;;
    state <- (c <- get venue "state" (PDict []) ;; get c "stateCode" (PStr "Unknown")) ;;
    address <- (c <- get venue "address" (PDict []) ;; get c "line1" (PStr "Unknown")) ;;
    Return (PDict [("name", name); ("city", city); ("state", state); ("address", address)])
  else Return (PDict []).

Definition format_event (event : pyval) : outcome pyval :=
  venue_info <- venue_of event ;;
  dates <- get event "dates" (PDict []) ;;
  start_info <- get dates "start" (PDict []) ;;
  event_date <- get start_info "localDate" (PStr "Unknown") ;;
  event_time <- get start_info "localTime" (PStr "TBD") ;;
  classifications <-
    (c <- get event "classifications" (PList [PDict []]) ;; getindex c 0%nat) ;;
  segment <- (x <- get classifications "segment" (PDict []) ;; get x "name" (PStr "Unknown")) ;;
  genre <- (x <- get classifications "genre" (PDict []) ;; get x "name" (PStr "Unknown")) ;;
  name <- get event "name" (PStr "Unknown") ;;
  url <- get event "url" (PStr EmptyString) ;;
  priceRanges <- get event "priceRanges" (PList []) ;;
  Return (PDict [("name", name); ("date", event_date); ("time", event_time);
                 ("type", segment); ("genre", genre); ("venue", venue_info);
                 ("url", url); ("priceRanges", priceRanges)]).

Definition get_local_events_try (api_key zip_code : string)
    (start_date end_date : option string) (size : Z) : outcome string :=
  let '(start_date, end_date) := date_range start_date end_date in
  data <- requests_get_events
            (EventsRequest api_key zip_code "US" start_date end_date
                           (Z.min size 200) "date,asc") ;;
  embedded <- has "_embedded" data ;;
  with_events <- (if (embedded : bool)
                  then (e <- getitem data "_embedded" ;; has "events" e)
                  else Return false) ;;
  if negb with_events then
    json_dumps None None
      (PDict [("zip_code", PStr zip_code); ("count", PInt 0); ("events", PList []);
              ("message", PStr ("No events found for ZIP code " ++ zip_code))])
  else
    events <- (e <- getitem data "_embedded" ;; getitem e "events") ;;
    items <- iterate events ;;
    formatted_events <- mapM format_event items ;;
    page <- get data "page" (PDict []) ;;
    json_dumps None (Some 2%nat)
      (PDict [("zip_code", PStr zip_code);
              ("count", PInt (Z.of_nat (List.length formatted_events)));
              ("events", PList formatted_events);
              ("page", page)]).

Definition get_local_events (zip_code : string) (start_date end_date : option string)
    (size : Z) : outcome string :=
  try_except
    (match key_configured TICKETMASTER_API_KEY with
     | None =>
         json_dumps None None
           (PDict [("error", PStr "Ticketmaster API key not configured. Set TICKETMASTER_API_KEY environment variable.");
                   ("events", PList [])])
     | Some api_key => get_local_events_try api_key zip_code start_date end_date size
     end)
    (fun e =>
       match exn_cls e with
       | RequestException =>
           Some (json_dumps None None
                   (PDict [("error", PStr ("Failed to fetch events: " ++ exn_str e));
                           ("events", PList [])]))
       | _ =>
           Some (json_dumps None None
                   (PDict [("error", PStr ("Error: " ++ exn_str e));
                           ("events", PList [])]))
       end).

(** [datetime.fromisoformat(h['date']).month == month] *)
Definition in_month (month : Z) (h : pyval) : outcome bool :=
  date <- getitem h "date" ;;
  match date with
  | PStr text => m <- fromisoformat_month text ;; Return (m =? month)%Z
  | _ => Raise (Exn TypeError "fromisoformat: argument must be str")
  end.

Fixpoint filterM {A} (f : A -> outcome bool) (l : list A) : outcome (list A) :=
  match l with
  | [] => Return []
  | x :: xs =>
      keep <- f x ;;
      rest <- filterM f xs ;;
      Return (if (keep : bool) then x :: rest else rest)
  end.

Definition format_holiday (holiday : pyval) : outcome pyval :=
  date <- getitem holiday "date" ;;
  name <- getitem holiday "name" ;;
  localName <- (default <- getitem holiday "name" ;; get holiday "localName" default) ;;
  countryCode <- getitem holiday "countryCode" ;;
  global <- get holiday "global" (PBool false) ;;
  types <- get holiday "types" (PList []) ;;
  Return (PDict [("date", date); ("name", name); ("localName", localName);
                 ("countryCode", countryCode); ("global", global); ("types", types)]).

Definition get_national_holidays_try (year month : option Z) : outcome string :=
  let year := match year with Some y => y | None => SignalTools.year (now 0%nat) end in
  holidays <- requests_get_holidays year ;;
  items <- match month with
           | Some m => (l <- iterate holidays ;; filterM (in_month m) l)
           | None => iterate holidays
           end ;;
  formatted_holidays <- mapM format_holiday items ;;
  json_dumps None (Some 2%nat)
    (PDict [("year", PInt year);
            ("month", match month with
                      | Some m => if (m =? 0)%Z then PStr "all" else PInt m
                      | None => PStr "all"
                      end);
            ("count", PInt (Z.of_nat (List.length formatted_holidays)));
            ("holidays", PList formatted_holidays)]).

Definition get_national_holidays (year month : option Z) : outcome string :=
  try_except (get_national_holidays_try year month)
    (fun e =>
       match exn_cls e with
       | RequestException =>
           Some (json_dumps None None
                   (PDict [("error", PStr ("Failed to fetch holidays: " ++ exn_str e));
                           ("holidays", PList [])]))
       | _ =>
           Some (json_dumps None None
                   (PDict [("error", PStr ("Error: " ++ exn_str e));
                           ("holidays", PList [])]))
       end).

End Tools.
End SignalTools.

(* ===================================================================== *)
(** ** Inputs used to exercise the models *)
(* ===================================================================== *)

Module Fixtures.
Import Py.

(** Values decoded from JSON hold no [Decimal]. *)
Fixpoint json_native (v : pyval) : bool :=
  match v with
  | PDec _ => false
  | PList l => forallb json_native l
  | PDict d => forallb (fun kv => json_native (snd kv)) d
  | _ => true
  end.

(** Two strings that differ at most in the case of their letters. *)
Definition same_letters (s s' : string) : Prop := lower s = lower s'.


(** The records a ZIP query is about: indexed, in that ZIP code and, when
    a status is given, with that status. *)
Definition zip_matches (zip_code : string) (status : option string) (v : dict) : bool :=
  FleetTools.in_zip_code_index v
  && FleetTools.holds (FleetTools.Eq "zip_code" zip_code) v
  && match FleetTools.given status with
     | Some st => FleetTools.holds (FleetTools.Eq "status" st) v
     | None => true
     end.

(** The records a scan is about: every filter that is given holds.  The
    make and model filters look for the title-cased argument inside the
    stored text, the category filter compares the lower-cased argument with
    the stored text, the status filter compares the argument as it is. *)
Definition selects (make model category status : option string) (v : dict) : bool :=
  match FleetTools.given make with
  | Some m => FleetTools.holds (FleetTools.Contains "make" (title m)) v
  | None => true
  end
  && match FleetTools.given model with
     | Some m => FleetTools.holds (FleetTools.Contains "model" (title m)) v
     | None => true
     end
  && match FleetTools.given category with
     | Some c => FleetTools.holds (FleetTools.Eq "category" (lower c)) v
     | None => true
     end
  && match FleetTools.given status with
     | Some st => FleetTools.holds (FleetTools.Eq "status" st) v
     | None => true
     end.

(** The number of records with exactly the given status. *)
Definition with_status (status : string) (vehicles : list dict) : nat :=
  List.length (filter (fun v => match lookup "status" v with
                                | Some (PStr s) => String.eqb s status
                                | _ => false
                                end) vehicles).

(** A record whose status is one of the enumerated values. *)
Definition status_enumerated (v : dict) : Prop :=
  lookup "status" v = Some (PStr "available")
  \/ lookup "status" v = Some (PStr "rented")
  \/ lookup "status" v = Some (PStr "maintenance").

(** A record that carries its location. *)
Definition located (v : dict) : Prop := exists loc, lookup "location" v = Some (PStr loc).


(** Sample records, as the loader writes them. *)
Definition vehicle (id make model category status location zip : string) (rate : Z) : dict :=
  [("vehicle_id", PStr id); ("make", PStr make); ("model", PStr model);
   ("year", PDec (Decimal 2024 0)); ("category", PStr category);
   ("status", PStr status); ("location", PStr location); ("zip_code", PStr zip);
   ("daily_rate", PDec (Decimal rate (-2)))].

Definition camry : dict :=
  vehicle "v-1" "Toyota" "Camry" "sedan" "available" "Boston, MA" "02101" 5250.
Definition bmw : dict :=
  vehicle "v-2" "BMW" "3 Series" "luxury" "rented" "Boston, MA" "02101" 12550.
Definition crv : dict :=
  vehicle "v-3" "Honda" "CR-V" "suv" "maintenance" "Miami, FL" "33101" 7000.

Definition sample_table : FleetTools.fleet_table :=
  FleetTools.FleetTable [camry; bmw; crv] None.

(** A table whose scan meets a hundred sedans before its only Honda. *)
Definition crowded_table : FleetTools.fleet_table :=
  FleetTools.FleetTable (repeat camry 100 ++ [crv])%list None.

(** A record stored without a location, and a table that holds it. *)
Definition unlocated : dict :=
  [("vehicle_id", PStr "v-9"); ("make", PStr "Ford"); ("status", PStr "available");
   ("zip_code", PStr "90001")].

Definition sparse_table : FleetTools.fleet_table :=
  FleetTools.FleetTable [unlocated] None.

(** Stand-ins for the float arithmetic of the interpreter and of pandas. *)
Definition float_sample : decimal -> string := fun _ => "52.5".
Definition mean_sample : list pyval -> outcome pyval := fun _ => Return (PFloat "84.33333333333333").
Definition round_sample : pyval -> Z -> outcome pyval := fun _ _ => Return (PFloat "84.33").
Definition counts_sample : list pyval -> outcome pyval :=
  fun _ => Return (PDict [("sedan", PInt 1); ("luxury", PInt 1)]).

(** A clock stopped at 2026-11-04 09:05:07, and an events service that
    answers with the end of the range it was asked for. *)
Definition clock_sample : nat -> SignalTools.datetime :=
  fun _ => SignalTools.DateTime 2026 11 4 9 5 7.
Definition echo_end : SignalTools.events_request -> outcome pyval :=
  fun r => Raise (Exn RequestException (SignalTools.endDateTime r)).

(** A network that is down, parsers that reject everything. *)
Definition offline {A B} : A -> outcome B :=
  fun _ => Raise (Exn URLError "<urlopen error timed out>").
Definition no_parse : string -> outcome Z :=
  fun _ => Raise (Exn ValueError "invalid literal for int()").

End Fixtures.

(* ===================================================================== *)
(** ** Shapes of the documents the tools return *)
(* ===================================================================== *)

Module Shapes.
Import Py.

(** An error document: a message and an empty primary collection. *)
Definition failure_document (message collection : string) : pyval :=
  PDict [("error", PStr message); (collection, PList [])].

Definition error_shaped (collection : string) (document : pyval) : Prop :=
  exists message, document = failure_document message collection.

(** A forecast document whose day count is the length of its forecast. *)
Definition forecast_shaped (document : pyval) : Prop :=
  exists name latitude longitude forecast,
    document = PDict [("location", name); ("latitude", latitude);
                      ("longitude", longitude);
                      ("forecast_days", PInt (Z.of_nat (List.length forecast)));
                      ("forecast", PList forecast)].

(** The six daily series of a forecast answer, read at one index. *)
Definition forecast_row (times temp_max temp_min precipitation probability codes : list pyval)
    (i : nat) : pyval :=
  PDict [("date", nth i times PNone);
         ("temp_max_f", nth i temp_max PNone);
         ("temp_min_f", nth i temp_min PNone);
         ("precipitation_mm", nth i precipitation PNone);
         ("precipitation_probability", nth i probability PNone);
         ("weather_code", nth i codes PNone)].

(** A forecast request for at most sixteen days, or any other request. *)
Definition within_forecast_limit (r : WeatherLambda.weather_request) : Prop :=
  match r with
  | WeatherLambda.GeocodeSearch _ => True
  | WeatherLambda.DailyForecast _ _ n => (n <= 16)%Z
  end.

(** An entry of a flight answer whose nested objects, where present, are
    mappings. *)
Definition mapping_or_absent (k : string) (d : dict) : Prop :=
  lookup k d = None \/ exists m, lookup k d = Some (PDict m).

Definition flight_record (flight : pyval) : Prop :=
  exists d, flight = PDict d /\
    mapping_or_absent "flight" d /\ mapping_or_absent "airline" d /\
    mapping_or_absent "departure" d /\ mapping_or_absent "arrival" d.

(** The flight document for a missing key. *)
Definition key_missing_document (airport : string) : pyval :=
  PDict [("error", PStr "AviationStack API key not configured. Please add AVIATIONSTACK_API_KEY to Lambda environment");
         ("airport", PStr airport);
         ("note", PStr "Get a free API key at https://aviationstack.com/");
         ("flights", PList [])].

(** Sample answers of the weather services. *)
Definition geocode_boston : pyval :=
  PDict [("results", PList [PDict [("name", PStr "Boston");
                                   ("latitude", PFloat "42.35843");
                                   ("longitude", PFloat "-71.05977")]])].

Definition daily_boston : pyval :=
  PDict [("daily",
          PDict [("time", PList [PStr "2026-11-04"; PStr "2026-11-05"]);
                 ("temperature_2m_max", PList [PFloat "51.2"; PFloat "48.9"]);
                 ("temperature_2m_min", PList [PFloat "40.1"; PFloat "37.4"]);
                 ("precipitation_sum", PList [PFloat "0.0"; PFloat "2.4"]);
                 ("precipitation_probability_max", PList [PInt 5; PInt 70]);
                 ("weathercode", PList [PInt 1; PInt 61])])].

Definition open_meteo (r : WeatherLambda.weather_request) : outcome pyval :=
  match r with
  | WeatherLambda.GeocodeSearch name =>
      if String.eqb name "Boston" then Return geocode_boston
      else Return (PDict [("generationtime_ms", PFloat "0.5")])
  | WeatherLambda.DailyForecast _ _ _ => Return daily_boston
  end.

(** [int] on the decimal text of the samples. *)
Definition int_sample (s : string) : outcome Z :=
  if String.eqb s "3" then Return 3%Z
  else Raise (Exn ValueError ("invalid literal for int() with base 10: '" ++ s ++ "'")).

(** Sample answers of the flight service. *)
Definition arrivals_sample : pyval :=
  PDict [("data",
          PList [PDict [("flight", PDict [("iata", PStr "AA100")]);
                        ("airline", PDict [("name", PStr "American Airlines")]);
                        ("departure", PDict [("iata", PStr "JFK")]);
                        ("flight_status", PStr "landed")];
                 PDict [("flight_status", PStr "scheduled")]])].

Definition aviationstack (r : FlightLambda.flight_request) : outcome pyval :=
  if String.eqb (FlightLambda.arr_iata r) "LAX" then Return arrivals_sample
  else Return (PDict [("error", PDict [("info", PStr "Invalid airport")])]).

Definition str_sample (v : pyval) : string :=
  match v with PStr s => s | _ => "?" end.

(** What one record adds to the three status counts together. *)
Definition status_share (v : dict) : nat :=
  Fixtures.with_status "available" [v] + Fixtures.with_status "rented" [v]
  + Fixtures.with_status "maintenance" [v].


(** The location text of a record, and whether it is a given one. *)
Definition location_text (v : dict) : string :=
  match lookup "location" v with Some (PStr s) => s | _ => EmptyString end.

Definition at_location (k : string) (v : dict) : bool :=
  match lookup "location" v with Some (PStr s) => String.eqb s k | _ => false end.

(** The distinct elements of a list, in the order they first appear. *)
Definition see (seen : list string) (k : string) : list string :=
  if existsb (String.eqb k) seen then seen else (seen ++ [k])%list.

Definition first_seen (l : list string) : list string := fold_left see l [].

(** The groups of a scan result: one per distinct location, in the order
    the locations first appear, each with its vehicles in scan order. *)
Definition groups_in_scan_order (vehicles : list dict) : list (string * list dict) :=
  map (fun k => (k, filter (at_location k) vehicles))
      (first_seen (map location_text vehicles)).

(** A holiday as the service lists it: a mapping with a date text, a name
    and a country code. *)
Definition holiday_record (h : pyval) : Prop :=
  exists d date name country,
    h = PDict d /\ lookup "date" d = Some (PStr date) /\
    lookup "name" d = Some name /\ lookup "countryCode" d = Some country.

Definition holiday_date (h : pyval) : string :=
  match h with
  | PDict d => match lookup "date" d with Some (PStr date) => date | _ => EmptyString end
  | _ => EmptyString
  end.

(** How the two HTTP tools of the fleet module word a failure. *)
Definition failure_message (what : string) (e : exn) : string :=
  match exn_cls e with
  | RequestException => "Failed to fetch " ++ what ++ ": " ++ exn_str e
  | _ => "Error: " ++ exn_str e
  end.

(** The holidays a month filter keeps, given the month of each date. *)
Definition in_month_of (month_of : string -> Z) (month : option Z) (holidays : list pyval)
  : list pyval :=
  match month with
  | Some m => filter (fun h => (month_of (holiday_date h) =? m)%Z) holidays
  | None => holidays
  end.

(** The [month] field of the holiday document. *)
Definition month_field (month : option Z) : pyval :=
  match month with
  | Some m => if (m =? 0)%Z then PStr "all" else PInt m
  | None => PStr "all"
  end.

(** Sample answers of the holiday and event services. *)
Definition holidays_2025 : pyval :=
  PList [PDict [("date", PStr "2025-01-01"); ("name", PStr "New Year's Day");
                ("countryCode", PStr "US")];
         PDict [("date", PStr "2025-07-04"); ("name", PStr "Independence Day");
                ("localName", PStr "Independence Day"); ("countryCode", PStr "US");
                ("global", PBool true)];
         PDict [("date", PStr "2025-12-25"); ("name", PStr "Christmas Day");
                ("countryCode", PStr "US")]].

Definition nager (year : Z) : outcome pyval :=
  if (year =? 2025)%Z then Return holidays_2025
  else Raise (Exn RequestException "404 Client Error: Not Found").

(** The month of the dates of the samples. *)
Definition month_sample (date : string) : Z :=
  if String.eqb date "2025-01-01" then 1
  else if String.eqb date "2025-07-04" then 7
  else 12.

Definition quiet_week : SignalTools.events_request -> outcome pyval :=
  fun _ => Return (PDict [("page", PDict [("totalElements", PInt 0)])]).

End Shapes.

(* ===================================================================== *)
(** ** Facts about the Python layer *)
(* ===================================================================== *)

Module PyFacts.
Import Py Fixtures.

Example title_cr_v : title "cr-v" = "Cr-V". Proof. reflexivity. Qed.
Example title_bmw : title "bmw" = "Bmw". Proof. reflexivity. Qed.
Example title_grand : title "gRAND cherokee" = "Grand Cherokee". Proof. reflexivity. Qed.
Example title_rav4 : title "RAV4" = "Rav4". Proof. reflexivity. Qed.
Example split_two :
  split "___" "WeatherTarget___get_weather_forecast"
  = ["WeatherTarget"; "get_weather_forecast"].
Proof. reflexivity. Qed.
Example split_four : split "___" "a____b" = ["a"; "_b"]. Proof. reflexivity. Qed.
Example split_three : split "___" "a___b___c" = ["a"; "b"; "c"]. Proof. reflexivity. Qed.
Example split_edge : split "___" "___" = [EmptyString; EmptyString].
Proof. reflexivity. Qed.
Example dumps_error :
  json_dumps None None (PDict [("error", PStr "Unknown tool: bogus")])
  = Return ("{" ++ dquote ++ "error" ++ dquote ++ ": "
            ++ dquote ++ "Unknown tool: bogus" ++ dquote ++ "}").
Proof. reflexivity. Qed.
Example dumps_nested :
  json_dumps None None
    (PDict [("message", PStr ("a" ++ dquote ++ "b")); ("vehicles", PList []);
            ("n", PInt (-12))])
  = Return ("{" ++ dquote ++ "message" ++ dquote ++ ": "
            ++ dquote ++ "a" ++ backslash ++ dquote ++ "b" ++ dquote
            ++ ", " ++ dquote ++ "vehicles" ++ dquote ++ ": [], "
            ++ dquote ++ "n" ++ dquote ++ ": -12}").
Proof. reflexivity. Qed.
Example dumps_decimal_plain :
  json_dumps None None (PList [PDec (Decimal 4567 (-2))])
  = Raise (Exn TypeError "Object of type Decimal is not JSON serializable").
Proof. reflexivity. Qed.

(** *** Strings *)

Lemma append_nil_r (s : string) : s ++ EmptyString = s.
Proof. induction s as [|c s IH]; simpl; [reflexivity | now rewrite IH]. Qed.

Lemma append_assoc (a b c : string) : (a ++ b) ++ c = a ++ (b ++ c).
Proof. induction a as [|x a IH]; simpl; [reflexivity | now rewrite IH]. Qed.

Lemma prefix_nil_r (sep : string) : sep <> EmptyString -> String.prefix sep EmptyString = false.
Proof. destruct sep; [congruence | reflexivity]. Qed.

Lemma prefix_append (sep s : string) : String.prefix sep (sep ++ s) = true.
Proof.
  induction sep as [|c sep IH]; simpl.
  - now destruct s.
  - destruct (ascii_dec c c); [exact IH | congruence].
Qed.

Lemma contains_prefix (sep s : string) :
  String.prefix sep s = true -> contains sep s = true.
Proof. intros H. destruct s; cbn [contains]; rewrite H; reflexivity. Qed.

Lemma contains_append (sep a b : string) : contains sep (a ++ sep ++ b) = true.
Proof.
  induction a as [|c a IH]; simpl.
  - apply contains_prefix, prefix_append.
  - rewrite IH. apply orb_true_r.
Qed.

Lemma contains_false_inv (sep : string) (c : ascii) (s : string) :
  contains sep (String c s) = false ->
  String.prefix sep (String c s) = false /\ contains sep s = false.
Proof. simpl. intros H. now apply orb_false_iff in H. Qed.

Lemma split_from_not_nil (sep s : string) (skip : nat) (cur : string) :
  split_from sep s skip cur <> [].
Proof.
  revert skip cur. induction s as [|c s IH]; intros skip cur; simpl.
  - discriminate.
  - destruct skip; [ | apply IH].
    match goal with |- context [if ?b then _ else _] => destruct b end;
      [discriminate | apply IH].
Qed.

(** A string that holds the separator splits into at least two pieces. *)
Lemma split_from_two (sep : string) :
  sep <> EmptyString ->
  forall s cur, contains sep s = true ->
  exists a b rest, split_from sep s 0 cur = a :: b :: rest.
Proof.
  intros Hsep s. induction s as [|c s IH]; intros cur H.
  - cbn [contains] in H. rewrite prefix_nil_r in H by assumption. discriminate.
  - cbn [split_from]. cbn [contains] in H.
    destruct (String.prefix sep (String c s)) eqn:P.
    + destruct (split_from sep s (String.length sep - 1) EmptyString) as [|b rest] eqn:E.
      * now apply split_from_not_nil in E.
      * now exists cur, b, rest.
    + simpl in H. apply IH. exact H.
Qed.

(** A string without the separator is its own single piece. *)
Lemma split_from_none (sep s cur : string) :
  contains sep s = false -> split_from sep s 0 cur = [cur ++ s].
Proof.
  revert cur. induction s as [|c s IH]; intros cur H.
  - simpl. now rewrite append_nil_r.
  - apply contains_false_inv in H as [P H]. cbn [split_from]. rewrite P.
    rewrite IH by assumption. now rewrite append_assoc.
Qed.

Lemma prefix3_window (c : ascii) (t rest : string) :
  String.prefix "___" (String c (t ++ "___" ++ rest))
  = String.prefix "___" (String c (t ++ "__")).
Proof.
  destruct t as [|d [|e t]]; simpl;
    repeat match goal with
           | |- context [ascii_dec ?a ?b] => destruct (ascii_dec a b)
           end; try reflexivity.
  all: now destruct t.
Qed.

(** The first separator of [target ++ "___" ++ rest] is the one written,
    as soon as none starts inside [target]. *)
Lemma split_from_first (target rest cur : string) :
  contains "___" (target ++ "__") = false ->
  split_from "___" (target ++ "___" ++ rest) 0 cur
  = (cur ++ target) :: split_from "___" rest 0 EmptyString.
Proof.
  revert cur. induction target as [|c t IH]; intros cur H.
  - change (EmptyString ++ "___" ++ rest) with ("___" ++ rest).
    rewrite append_nil_r. pose proof (prefix_append "___" rest) as P.
    simpl in P |- *. rewrite P. reflexivity.
  - change (String c t ++ "__") with (String c (t ++ "__")) in H.
    apply contains_false_inv in H as [P H].
    change (String c t ++ "___" ++ rest) with (String c (t ++ "___" ++ rest)).
    cbn [split_from]. rewrite prefix3_window, P.
    rewrite IH by assumption. now rewrite append_assoc.
Qed.

(** *** Letter case *)

Lemma to_lower_idem (c : ascii) : to_lower (to_lower c) = to_lower c.
Proof. destruct c as [[] [] [] [] [] [] [] []]; reflexivity. Qed.

Lemma to_upper_lower (c : ascii) : to_upper (to_lower c) = to_upper c.
Proof. destruct c as [[] [] [] [] [] [] [] []]; reflexivity. Qed.



Lemma lower_idem (s : string) : lower (lower s) = lower s.
Proof. induction s as [|c s IH]; simpl; [reflexivity | now rewrite to_lower_idem, IH]. Qed.



(** *** [json.dumps] returns *)


Lemma returns_Return {A} (a : A) : returns (Return a).
Proof. now exists a. Qed.

Lemma returns_bind {A B} (c : outcome A) (k : A -> outcome B) :
  returns c -> (forall a, returns (k a)) -> returns (bind c k).
Proof. intros [a ->] H. apply H. Qed.

(** The encoder returns on every value whose [Decimal]s, if any, are all
    taken care of. *)
Lemma json_encode_returns (on_decimal : decimal -> outcome string)
    (indent : option nat) (v : pyval) :
  json_native v = true \/ (forall d, returns (on_decimal d)) ->
  forall level, returns (json_encode on_decimal indent level v).
Proof.
  induction v using pyval_nested_ind; intros Hok level;
    try (simpl; apply returns_Return).
  - destruct Hok as [Hok | Hok]; [discriminate | apply Hok].
  - cbn [json_encode]. apply returns_bind; [ | intros; apply returns_Return].
    assert (Hall : Forall (fun x => forall level, returns
                     (json_encode on_decimal indent level x)) l).
    { induction H as [|x xs Hx Hxs IH]; constructor.
      - apply Hx. destruct Hok as [Hok | Hok]; [left | now right].
        simpl in Hok. now apply andb_true_iff in Hok.
      - apply IH. destruct Hok as [Hok | Hok]; [left | now right].
        simpl in Hok. now apply andb_true_iff in Hok. }
    clear H Hok. induction Hall as [|x xs Hx Hxs IH]; [apply returns_Return|].
    apply returns_bind; [apply Hx|]. intros s.
    apply returns_bind; [apply IH|]. intros; apply returns_Return.
  - cbn [json_encode]. apply returns_bind; [ | intros; apply returns_Return].
    assert (Hall : Forall (fun kv => forall level, returns
                     (json_encode on_decimal indent level (snd kv))) d).
    { induction H as [|x xs Hx Hxs IH]; constructor.
      - apply Hx. destruct Hok as [Hok | Hok]; [left | now right].
        simpl in Hok. now apply andb_true_iff in Hok.
      - apply IH. destruct Hok as [Hok | Hok]; [left | now right].
        simpl in Hok. now apply andb_true_iff in Hok. }
    clear H Hok. induction Hall as [|[k x] xs Hx Hxs IH]; [apply returns_Return|].
    apply returns_bind; [apply Hx|]. intros s.
    apply returns_bind; [apply IH|]. intros; apply returns_Return.
Qed.

(** Without a hook, a value decoded from JSON is always serialised. *)
Lemma json_dumps_native (indent : option nat) (v : pyval) :
  json_native v = true -> returns (json_dumps None indent v).
Proof. intros H. apply json_encode_returns. now left. Qed.


End PyFacts.

(* ===================================================================== *)
(** ** Facts about the remote handlers *)
(* ===================================================================== *)

Module HandlerFacts.
Import Py Gateway Fixtures PyFacts.

Lemma json_dumps_error (message : string) :
  json_dumps None None (error_document message) = Return (error_body message).
Proof.
  unfold json_dumps, error_document, error_body. simpl. reflexivity.
Qed.

Lemma get_tool_name_same (context : lambda_context) :
  FlightLambda.get_tool_name context = WeatherLambda.get_tool_name context.
Proof. reflexivity. Qed.

(** What [get_tool_name] computes from the identifier of the context. *)
Lemma get_tool_name_identifier (context : lambda_context) (id : string) :
  tool_identifier context = Some id ->
  WeatherLambda.get_tool_name context
  = if contains "___" id then second (split "___" id) else Return id.
Proof.
  intros H. destruct context as [[[[d|]]|]];
    unfold tool_identifier in H; simpl in H; try discriminate.
  unfold WeatherLambda.get_tool_name, attr_client_context, attr_custom_get.
  simpl. rewrite H. cbn [bind].
  destruct (contains "___" id) eqn:C; [ | reflexivity].
  destruct (split_from_two "___" ltac:(discriminate) id EmptyString C)
    as (a & b & rest & E).
  unfold split. rewrite E. reflexivity.
Qed.

Lemma get_tool_name_no_identifier (context : lambda_context) :
  tool_identifier context = None ->
  WeatherLambda.get_tool_name context = Return EmptyString.
Proof.
  intros H. destruct context as [[[[d|]]|]];
    unfold tool_identifier in H; simpl in H; try reflexivity.
  unfold WeatherLambda.get_tool_name, attr_client_context, attr_custom_get.
  simpl. rewrite H. reflexivity.
Qed.

Lemma get_tool_name_separator (context : lambda_context) (id : string) :
  tool_identifier context = Some id -> contains "___" id = true ->
  exists before after rest,
    split "___" id = before :: after :: rest /\
    WeatherLambda.get_tool_name context = Return after.
Proof.
  intros Hid C. rewrite (get_tool_name_identifier _ _ Hid), C.
  destruct (split_from_two "___" ltac:(discriminate) id EmptyString C)
    as (a & b & rest & E).
  exists a, b, rest. unfold split. now rewrite E.
Qed.

Lemma get_tool_name_returns (context : lambda_context) :
  returns (WeatherLambda.get_tool_name context).
Proof.
  destruct (tool_identifier context) as [id|] eqn:E.
  - rewrite (get_tool_name_identifier _ _ E).
    destruct (contains "___" id) eqn:C; [ | apply returns_Return].
    destruct (split_from_two "___" ltac:(discriminate) id EmptyString C)
      as (a & b & rest & S).
    unfold split. rewrite S. apply returns_Return.
  - rewrite (get_tool_name_no_identifier _ E). apply returns_Return.
Qed.


Section Weather.
Variable urlopen_json : WeatherLambda.weather_request -> outcome pyval.
Variables int_of_str int_of_float : string -> outcome Z.

Local Abbreviation get_weather_forecast :=
  (WeatherLambda.get_weather_forecast urlopen_json).
Local Abbreviation lambda_handler_try :=
  (WeatherLambda.lambda_handler_try urlopen_json int_of_str int_of_float).
Local Abbreviation lambda_handler :=
  (WeatherLambda.lambda_handler urlopen_json int_of_str int_of_float).

(** The weather tool turns every failure into an error document. *)
Lemma get_weather_forecast_returns (location : pyval) (days : Z) :
  returns (get_weather_forecast location days).
Proof.
  unfold WeatherLambda.get_weather_forecast, try_except.
  destruct (WeatherLambda.get_weather_forecast_try _ _ _) as [v|e].
  - apply returns_Return.
  - destruct (exn_cls e); apply returns_Return.
Qed.

Lemma weather_unknown_tool (event : event) (context : lambda_context) (name : string) :
  json_native (PDict event) = true ->
  WeatherLambda.get_tool_name context = Return name ->
  name <> "get_weather_forecast" ->
  lambda_handler event context
  = Return (Response 400 (error_body ("Unknown tool: " ++ name))).
Proof.
  intros Hev Hname Hne.
  unfold WeatherLambda.lambda_handler, WeatherLambda.lambda_handler_try.
  destruct (json_dumps_native None _ Hev) as [text ->]. cbn [bind].
  rewrite Hname. cbn [bind].
  apply String.eqb_neq in Hne. rewrite Hne.
  change (PDict [("error", PStr ("Unknown tool: " ++ name))])
    with (error_document ("Unknown tool: " ++ name)).
  rewrite json_dumps_error. reflexivity.
Qed.

Lemma weather_missing_location (event : event) (context : lambda_context) :
  json_native (PDict event) = true ->
  WeatherLambda.get_tool_name context = Return "get_weather_forecast" ->
  truthy (WeatherLambda.get_named_parameter event "location") = false ->
  lambda_handler event context
  = Return (Response 400 (error_body "location parameter is required")).
Proof.
  intros Hev Hname Hloc.
  unfold WeatherLambda.lambda_handler, WeatherLambda.lambda_handler_try.
  destruct (json_dumps_native None _ Hev) as [text ->]. cbn [bind].
  rewrite Hname. cbn [bind]. rewrite String.eqb_refl, Hloc. reflexivity.
Qed.

Lemma weather_failure (event : event) (context : lambda_context) (e : exn) :
  lambda_handler_try event context = Raise e ->
  lambda_handler event context
  = Return (Response 500 (error_body ("Internal error: " ++ exn_str e))).
Proof.
  intros H. unfold WeatherLambda.lambda_handler. rewrite H.
  unfold try_except, except_Exception.
  change (PDict [("error", PStr ("Internal error: " ++ exn_str e))])
    with (error_document ("Internal error: " ++ exn_str e)).
  rewrite json_dumps_error. reflexivity.
Qed.



End Weather.

Section Flight.
Variable api_key : option string.
Variable urlopen_json : FlightLambda.flight_request -> outcome pyval.
Variable str_ : pyval -> string.

Local Abbreviation get_flight_traffic :=
  (FlightLambda.get_flight_traffic api_key urlopen_json str_).
Local Abbreviation flight_handler_try :=
  (FlightLambda.lambda_handler_try api_key urlopen_json str_).
Local Abbreviation flight_handler :=
  (FlightLambda.lambda_handler api_key urlopen_json str_).

(** The flight tool returns for every airport code that is text. *)
Lemma get_flight_traffic_returns (code : string) :
  returns (get_flight_traffic (PStr code)).
Proof.
  unfold FlightLambda.get_flight_traffic.
  destruct (FlightLambda.key_configured api_key) as [key|].
  - unfold try_except.
    destruct (FlightLambda.get_flight_traffic_try _ _ _ _) as [v|e].
    + apply returns_Return.
    + destruct (exn_cls e); simpl; apply returns_Return.
  - simpl. apply returns_Return.
Qed.

(** It raises when the code is not text: [upper] is called outside the
    [try] and again inside its handlers. *)
Lemma get_flight_traffic_raises (airport_code : pyval) :
  (forall s, airport_code <> PStr s) ->
  get_flight_traffic airport_code = no_attribute airport_code "upper".
Proof.
  intros H. unfold FlightLambda.get_flight_traffic.
  assert (U : upper_method airport_code = no_attribute airport_code "upper").
  { destruct airport_code; try reflexivity. now elim (H s). }
  destruct (FlightLambda.key_configured api_key) as [key|].
  - unfold FlightLambda.get_flight_traffic_try. rewrite U. reflexivity.
  - rewrite U. reflexivity.
Qed.

Lemma flight_unknown_tool (event : event) (context : lambda_context) (name : string) :
  json_native (PDict event) = true ->
  FlightLambda.get_tool_name context = Return name ->
  name <> "get_flight_traffic" ->
  flight_handler event context
  = Return (Response 400 (error_body ("Unknown tool: " ++ name))).
Proof.
  intros Hev Hname Hne.
  unfold FlightLambda.lambda_handler, FlightLambda.lambda_handler_try.
  destruct (json_dumps_native None _ Hev) as [text ->]. cbn [bind].
  rewrite Hname. cbn [bind].
  apply String.eqb_neq in Hne. rewrite Hne.
  change (PDict [("error", PStr ("Unknown tool: " ++ name))])
    with (error_document ("Unknown tool: " ++ name)).
  rewrite json_dumps_error. reflexivity.
Qed.

Lemma flight_missing_airport_code (event : event) (context : lambda_context) :
  json_native (PDict event) = true ->
  FlightLambda.get_tool_name context = Return "get_flight_traffic" ->
  truthy (FlightLambda.get_named_parameter event "airport_code") = false ->
  flight_handler event context
  = Return (Response 400 (error_body "airport_code parameter is required")).
Proof.
  intros Hev Hname Hloc.
  unfold FlightLambda.lambda_handler, FlightLambda.lambda_handler_try.
  destruct (json_dumps_native None _ Hev) as [text ->]. cbn [bind].
  rewrite Hname. cbn [bind]. rewrite String.eqb_refl, Hloc. reflexivity.
Qed.

Lemma flight_failure (event : event) (context : lambda_context) (e : exn) :
  flight_handler_try event context = Raise e ->
  flight_handler event context
  = Return (Response 500 (error_body ("Internal error: " ++ exn_str e))).
Proof.
  intros H. unfold FlightLambda.lambda_handler. rewrite H.
  unfold try_except, except_Exception.
  change (PDict [("error", PStr ("Internal error: " ++ exn_str e))])
    with (error_document ("Internal error: " ++ exn_str e)).
  rewrite json_dumps_error. reflexivity.
Qed.



End Flight.


End HandlerFacts.

(* ===================================================================== *)
(** ** The remote invocation contract *)
(* ===================================================================== *)

Module RemoteContract.
Import Py Gateway Fixtures PyFacts HandlerFacts.

Example error_body_text :
  error_body "Unknown tool: bogus"
  = "{" ++ dquote ++ "error" ++ dquote ++ ": "
    ++ dquote ++ "Unknown tool: bogus" ++ dquote ++ "}".
Proof. reflexivity. Qed.

Example weather_failure_days :
  WeatherLambda.lambda_handler offline no_parse no_parse
    [("location", PStr "Boston"); ("days", PList [PInt 3])]
    (context_for "WeatherTarget___get_weather_forecast")
  = Return (Response 500 (error_body
      "Internal error: int() argument must be a string, a bytes-like object or a real number, not 'list'")).
Proof. reflexivity. Qed.

Example weather_network_down :
  WeatherLambda.lambda_handler offline no_parse no_parse
    [("location", PStr "Boston")]
    (context_for "WeatherTarget___get_weather_forecast")
  = Return (Response 200
      ("{" ++ dquote ++ "error" ++ dquote ++ ": " ++ dquote
       ++ "Failed to fetch weather: <urlopen error timed out>" ++ dquote ++ ", "
       ++ dquote ++ "forecast" ++ dquote ++ ": []}")).
Proof. reflexivity. Qed.

(** C5. The handler recovers the bare tool name by splitting the tool
    identifier of the context on the triple underscore and taking the piece
    that follows the first separator: for an identifier
    [target ++ "___" ++ name] in which no separator starts inside [target]
    and [name] holds none, that piece is [name].  The identifier
    "WeatherTarget___get_weather_forecast" reaches the weather-forecast tool,
    whose result becomes the body of a 200 response; every recovered name
    other than the weather tool's, such as the one of "X___bogus", yields
    status 400 with the body [{"error": "Unknown tool: <name>"}]. *)
Theorem tool_name_recovered_and_dispatched
    (urlopen_json : WeatherLambda.weather_request -> outcome pyval)
    (int_of_str int_of_float : string -> outcome Z) :
  (forall context id,
      tool_identifier context = Some id -> contains "___" id = true ->
      exists before after rest,
        split "___" id = before :: after :: rest /\
        WeatherLambda.get_tool_name context = Return after)
  /\
  (forall context target name,
      tool_identifier context = Some (target ++ "___" ++ name) ->
      contains "___" (target ++ "__") = false ->
      contains "___" name = false ->
      WeatherLambda.get_tool_name context = Return name)
  /\
  (forall event location,
      json_native (PDict event) = true ->
      lookup "location" event = Some location -> truthy location = true ->
      lookup "days" event = None ->
      WeatherLambda.get_tool_name (context_for "WeatherTarget___get_weather_forecast")
      = Return "get_weather_forecast" /\
      exists weather_data,
        WeatherLambda.get_weather_forecast urlopen_json location 7 = Return weather_data /\
        WeatherLambda.lambda_handler urlopen_json int_of_str int_of_float event
          (context_for "WeatherTarget___get_weather_forecast")
        = match json_dumps None None weather_data with
          | Return body => Return (Response 200 body)
          | Raise e => Return (Response 500 (error_body ("Internal error: " ++ exn_str e)))
          end)
  /\
  (forall event context name,
      json_native (PDict event) = true ->
      WeatherLambda.get_tool_name context = Return name ->
      name <> "get_weather_forecast" ->
      WeatherLambda.lambda_handler urlopen_json int_of_str int_of_float event context
      = Return (Response 400 (error_body ("Unknown tool: " ++ name))))
  /\
  (forall event,
      json_native (PDict event) = true ->
      WeatherLambda.lambda_handler urlopen_json int_of_str int_of_float event
        (context_for "X___bogus")
      = Return (Response 400
          ("{" ++ dquote ++ "error" ++ dquote ++ ": "
           ++ dquote ++ "Unknown tool: bogus" ++ dquote ++ "}"))).
Proof.
  split; [ | split; [ | split; [ | split]]].
  - intros context id Hid C. now apply get_tool_name_separator.
  - intros context target name Hid Ht Hn.
    rewrite (get_tool_name_identifier _ _ Hid), contains_append.
    unfold split. rewrite split_from_first by assumption.
    rewrite split_from_none by assumption. reflexivity.
  - intros event location Hev Hloc Htruthy Hdays.
    split; [reflexivity | ].
    destruct (get_weather_forecast_returns urlopen_json location 7) as [w Hw].
    exists w. split; [exact Hw | ].
    unfold WeatherLambda.lambda_handler, WeatherLambda.lambda_handler_try.
    destruct (json_dumps_native None _ Hev) as [text ->]. cbn [bind].
    change (WeatherLambda.get_tool_name
              (context_for "WeatherTarget___get_weather_forecast"))
      with (@Return string "get_weather_forecast").
    cbn [bind]. rewrite String.eqb_refl.
    unfold WeatherLambda.get_named_parameter. rewrite Hloc, Htruthy, Hdays.
    cbn [negb bind]. rewrite Hw. cbn [bind].
    destruct (json_dumps None None w) as [body|e]; [reflexivity | ].
    unfold try_except, except_Exception. cbn [bind].
    change (PDict [("error", PStr ("Internal error: " ++ exn_str e))])
      with (error_document ("Internal error: " ++ exn_str e)).
    rewrite json_dumps_error. reflexivity.
  - intros event context name Hev Hname Hne. now apply weather_unknown_tool.
  - intros event Hev.
    apply (weather_unknown_tool urlopen_json int_of_str int_of_float
             event (context_for "X___bogus") "bogus"); [assumption | reflexivity | discriminate].
Qed.

Lemma tool_name_recovered_and_dispatched_witness :
  WeatherLambda.get_tool_name (context_for "WeatherTarget___get_weather_forecast")
  = Return "get_weather_forecast" /\
  WeatherLambda.lambda_handler offline no_parse no_parse [] (context_for "X___bogus")
  = Return (Response 400 (error_body "Unknown tool: bogus")).
Proof.
  destruct (tool_name_recovered_and_dispatched offline no_parse no_parse)
    as (_ & Hname & _ & Hunknown & _).
  split.
  - apply (Hname _ "WeatherTarget" "get_weather_forecast"); reflexivity.
  - apply (Hunknown [] _ "bogus"); [reflexivity | reflexivity | discriminate].
Defined.

(** C10. When the tool identifier holds no triple underscore, the whole
    identifier is the tool name, in both handlers; when the context carries
    no tool identifier, the name is the empty string and both handlers
    answer status 400 with the body [{"error": "Unknown tool: "}]. *)
Theorem tool_name_without_separator
    (weather_urlopen : WeatherLambda.weather_request -> outcome pyval)
    (int_of_str int_of_float : string -> outcome Z)
    (api_key : option string)
    (flight_urlopen : FlightLambda.flight_request -> outcome pyval)
    (str_ : pyval -> string) :
  (forall context id,
      tool_identifier context = Some id -> contains "___" id = false ->
      WeatherLambda.get_tool_name context = Return id /\
      FlightLambda.get_tool_name context = Return id)
  /\
  (forall context event,
      tool_identifier context = None -> json_native (PDict event) = true ->
      WeatherLambda.get_tool_name context = Return EmptyString /\
      FlightLambda.get_tool_name context = Return EmptyString /\
      WeatherLambda.lambda_handler weather_urlopen int_of_str int_of_float event context
      = Return (Response 400
          ("{" ++ dquote ++ "error" ++ dquote ++ ": "
           ++ dquote ++ "Unknown tool: " ++ dquote ++ "}")) /\
      FlightLambda.lambda_handler api_key flight_urlopen str_ event context
      = Return (Response 400
          ("{" ++ dquote ++ "error" ++ dquote ++ ": "
           ++ dquote ++ "Unknown tool: " ++ dquote ++ "}"))).
Proof.
  split.
  - intros context id Hid C.
    pose proof (get_tool_name_identifier _ _ Hid) as E. rewrite C in E.
    split; exact E.
  - intros context event Hid Hev.
    pose proof (get_tool_name_no_identifier _ Hid) as Hname.
    repeat split; try assumption.
    + apply (weather_unknown_tool weather_urlopen int_of_str int_of_float
               event context EmptyString); [assumption | assumption | discriminate].
    + apply (flight_unknown_tool api_key flight_urlopen str_
               event context EmptyString); [assumption | assumption | discriminate].
Qed.

Lemma tool_name_without_separator_witness :
  WeatherLambda.get_tool_name (context_for "get_weather_forecast")
  = Return "get_weather_forecast" /\
  FlightLambda.lambda_handler None offline (fun _ => EmptyString) []
    (LambdaContext (Some (ClientContext (Some []))))
  = Return (Response 400 (error_body "Unknown tool: ")).
Proof.
  destruct (tool_name_without_separator offline no_parse no_parse
              None offline (fun _ => EmptyString)) as (Hwhole & Hnone).
  split.
  - apply (Hwhole (context_for "get_weather_forecast")); reflexivity.
  - apply (Hnone (LambdaContext (Some (ClientContext (Some [])))) []); reflexivity.
Defined.




End RemoteContract.

(* ===================================================================== *)
(** ** Facts about the fleet store and the fleet tools *)
(* ===================================================================== *)

Module FleetFacts.
Import Py Fixtures PyFacts FleetTools.

Local Open Scope list_scope.

(** *** The store adapters *)

Lemma _search_by_zip_outage (t : fleet_table) (zip_code : string)
    (status : option string) (e : exn) :
  outage t = Some e -> _search_by_zip t zip_code status = [].
Proof.
  intros H. unfold _search_by_zip, query. rewrite H.
  now destruct (given status).
Qed.

Lemma filter_twice {A} (f g : A -> bool) (l : list A) :
  filter f (filter g l) = filter (fun x => g x && f x) l.
Proof.
  induction l as [|x l IH]; [reflexivity | ].
  cbn [filter]. destruct (g x); cbn [filter andb]; now rewrite IH.
Qed.

Lemma filter_everything {A} (f : A -> bool) (l : list A) :
  (forall x, f x = true) -> filter f l = l.
Proof.
  intros H. induction l as [|x l IH]; [reflexivity | ].
  cbn [filter]. now rewrite H, IH.
Qed.

Lemma _search_by_zip_answer (t : fleet_table) (zip_code : string)
    (status : option string) :
  outage t = None ->
  _search_by_zip t zip_code status = filter (zip_matches zip_code status) (items t).
Proof.
  intros H. unfold _search_by_zip, query. rewrite H.
  destruct (given status) as [st|] eqn:G;
    cbn [bind try_except response_get_Items Items];
    rewrite filter_twice; apply filter_ext; intros v;
    unfold zip_matches; rewrite G.
  - cbn [holds]. now rewrite andb_assoc.
  - now rewrite andb_true_r.
Qed.

Lemma holds_fold_And (rest : list condition) (first : condition) (v : dict) :
  holds (fold_left And rest first) v = holds first v && forallb (fun c => holds c v) rest.
Proof.
  revert first. induction rest as [|c rest IH]; intros first; simpl.
  - now rewrite andb_true_r.
  - rewrite IH. simpl. now rewrite andb_assoc.
Qed.

Lemma filter_expressions_select (make model category status : option string) (v : dict) :
  forallb (fun c => holds c v) (filter_expressions make model category status)
  = selects make model category status v.
Proof.
  unfold filter_expressions, selects.
  destruct (given make), (given model), (given category), (given status);
    cbn [List.concat app forallb];
    rewrite ?andb_true_r; rewrite ?andb_assoc; reflexivity.
Qed.

Lemma _search_vehicles_outage (t : fleet_table) (make model category status : option string)
    (e : exn) :
  outage t = Some e -> _search_vehicles t make model category status = [].
Proof.
  intros H. unfold _search_vehicles, scan. rewrite H.
  now destruct (filter_expressions make model category status).
Qed.

Lemma _search_vehicles_answer (t : fleet_table) (make model category status : option string) :
  outage t = None ->
  _search_vehicles t make model category status
  = filter (selects make model category status) (firstn 100 (items t)).
Proof.
  intros H. unfold _search_vehicles, scan. rewrite H.
  pose proof (filter_expressions_select make model category status) as S.
  destruct (filter_expressions make model category status) as [|first rest];
    cbn [bind try_except response_get_Items Items].
  - symmetry. apply filter_everything. intros v. symmetry. apply S.
  - apply filter_ext. intros v. rewrite holds_fold_And, <- S. reflexivity.
Qed.



(** *** Status counts *)

Lemma column_present (name : string) (first : dict) (rest : list dict) (x : pyval) :
  lookup name first = Some x ->
  column name (first :: rest)
  = Return (map (fun v => match lookup name v with Some y => y | None => nan end)
                (first :: rest)).
Proof. intros H. unfold column. cbn [existsb]. now rewrite H. Qed.

Lemma count_equal_with_status (status : string) (vehicles : list dict) :
  Forall (fun v => exists s, lookup "status" v = Some (PStr s)) vehicles ->
  count_equal (map (fun v => match lookup "status" v with Some y => y | None => nan end)
                   vehicles) status
  = with_status status vehicles.
Proof.
  unfold count_equal, with_status.
  induction 1 as [|v l [s Hv] _ IH]; [reflexivity | ].
  cbn [map filter]. rewrite Hv.
  destruct (String.eqb s status); cbn [List.length]; now rewrite IH.
Qed.

Lemma status_enumerated_text (v : dict) :
  status_enumerated v -> exists s, lookup "status" v = Some (PStr s).
Proof. intros [H | [H | H]]; eauto. Qed.

Lemma with_status_total (vehicles : list dict) :
  Forall status_enumerated vehicles ->
  with_status "available" vehicles + with_status "rented" vehicles
  + with_status "maintenance" vehicles = List.length vehicles.
Proof.
  unfold with_status.
  induction 1 as [|v l Hv _ IH]; [reflexivity | ].
  cbn [filter List.length].
  destruct Hv as [H | [H | H]]; rewrite H; cbn [String.eqb Ascii.eqb Bool.eqb];
    cbn [List.length]; lia.
Qed.

(** *** Grouping by location *)





Lemma location_of_located (v : dict) (loc : string) :
  lookup "location" v = Some (PStr loc) -> location_of v = Return loc.
Proof. unfold location_of. now intros ->. Qed.

Lemma location_of_inv (v : dict) (loc : string) :
  location_of v = Return loc -> lookup "location" v = Some (PStr loc).
Proof.
  unfold location_of. destruct (lookup "location" v) as [[]|]; try discriminate.
  now intros [= ->].
Qed.


End FleetFacts.

(* ===================================================================== *)
(** ** The fleet query service *)
(* ===================================================================== *)

Module FleetService.
Import Py Fixtures PyFacts FleetTools FleetFacts.

Local Open Scope list_scope.

Example summary_of_sample :
  _get_summary sample_table mean_sample counts_sample round_sample "02101"
  = Return (PDict [("zip_code", PStr "02101"); ("location", PStr "Boston, MA");
                   ("total_vehicles", PInt 2); ("available", PInt 1);
                   ("rented", PInt 1); ("maintenance", PInt 0);
                   ("categories", PDict [("sedan", PInt 1); ("luxury", PInt 1)]);
                   ("avg_daily_rate", PFloat "84.33")]).
Proof. reflexivity. Qed.

Example summary_of_unknown_zip :
  _get_summary sample_table mean_sample counts_sample round_sample "99999"
  = Return (PDict [("error", PStr "No vehicles found for 99999")]).
Proof. reflexivity. Qed.

Example scan_title_cases_make :
  _search_vehicles sample_table (Some "toYOTA") None (Some "SEDAN") None = [camry].
Proof. reflexivity. Qed.

(** C1. For a non-empty result set of a ZIP code in which every record
    has one of the statuses available, rented, maintenance, the summary
    that [_get_summary] returns has [total_vehicles] equal to the number of
    matched records, each of [available], [rented], [maintenance] equal to
    the number of records with exactly that status, and
    [available + rented + maintenance = total_vehicles]. *)
Theorem summary_status_counts_add_up
    (t : fleet_table) (series_mean value_counts : list pyval -> outcome pyval)
    (round_ : pyval -> Z -> outcome pyval) (zip_code : string)
    (first : dict) (rest : list dict) (location categories avg : pyval) :
  _search_by_zip t zip_code None = first :: rest ->
  Forall status_enumerated (first :: rest) ->
  lookup "location" first = Some location ->
  (c <- column "category" (first :: rest) ;; value_counts c) = Return categories ->
  (c <- column "daily_rate" (first :: rest) ;; m <- series_mean c ;; round_ m 2%Z)
  = Return avg ->
  _get_summary t series_mean value_counts round_ zip_code
  = Return (PDict
      [("zip_code", PStr zip_code);
       ("location", location);
       ("total_vehicles", PInt (Z.of_nat (List.length (first :: rest))));
       ("available", PInt (Z.of_nat (with_status "available" (first :: rest))));
       ("rented", PInt (Z.of_nat (with_status "rented" (first :: rest))));
       ("maintenance", PInt (Z.of_nat (with_status "maintenance" (first :: rest))));
       ("categories", categories);
       ("avg_daily_rate", avg)])
  /\ (Z.of_nat (with_status "available" (first :: rest))
      + Z.of_nat (with_status "rented" (first :: rest))
      + Z.of_nat (with_status "maintenance" (first :: rest))
      = Z.of_nat (List.length (first :: rest)))%Z.
Proof.
  intros Hq Hst Hloc Hcat Havg. split.
  - unfold _get_summary. rewrite Hq.
    unfold getitem. rewrite Hloc. cbn [bind].
    assert (Htext : Forall (fun v => exists s, lookup "status" v = Some (PStr s))
                           (first :: rest)).
    { eapply Forall_impl; [ | exact Hst]. apply status_enumerated_text. }
    inversion Htext as [|? ? [s Hs] _]; subst.
    rewrite (column_present "status" first rest _ Hs). cbn [bind].
    rewrite !count_equal_with_status by assumption.
    rewrite Hcat. cbn [bind]. rewrite Havg. reflexivity.
  - rewrite <- (with_status_total (first :: rest) Hst). lia.
Qed.

Lemma summary_status_counts_add_up_witness :
  _get_summary sample_table mean_sample counts_sample round_sample "02101"
  = Return (PDict
      [("zip_code", PStr "02101");
       ("location", PStr "Boston, MA");
       ("total_vehicles", PInt (Z.of_nat (List.length [camry; bmw])));
       ("available", PInt (Z.of_nat (with_status "available" [camry; bmw])));
       ("rented", PInt (Z.of_nat (with_status "rented" [camry; bmw])));
       ("maintenance", PInt (Z.of_nat (with_status "maintenance" [camry; bmw])));
       ("categories", PDict [("sedan", PInt 1); ("luxury", PInt 1)]);
       ("avg_daily_rate", PFloat "84.33")])
  /\ (Z.of_nat (with_status "available" [camry; bmw])
      + Z.of_nat (with_status "rented" [camry; bmw])
      + Z.of_nat (with_status "maintenance" [camry; bmw])
      = Z.of_nat (List.length [camry; bmw]))%Z.
Proof.
  apply (summary_status_counts_add_up sample_table mean_sample counts_sample
           round_sample "02101" camry [bmw]).
  - reflexivity.
  - repeat constructor; unfold status_enumerated; simpl; tauto.
  - reflexivity.
  - reflexivity.
  - reflexivity.
Defined.






Example grouping_of_sample :
  group_by_location [camry; crv; bmw] []
  = Return [("Boston, MA", [camry; bmw]); ("Miami, FL", [crv])].
Proof. reflexivity. Qed.

(** C7. The fleet tools have no handler of their own around the lookup of
    a record's location: on a stored record without that attribute,
    [search_fleet_by_zip], [search_vehicles_general] and [get_fleet_summary]
    raise [KeyError] instead of returning a JSON result. *)
Theorem fleet_tools_raise_on_unlocated_record :
  _search_by_zip sparse_table "90001" None = [unlocated] /\
  search_fleet_by_zip sparse_table float_sample "90001" None
  = Raise (Exn KeyError "'location'") /\
  search_vehicles_general sparse_table float_sample (Some "ford") None None None
  = Raise (Exn KeyError "'location'") /\
  get_fleet_summary sparse_table float_sample mean_sample counts_sample round_sample "90001"
  = Raise (Exn KeyError "'location'").
Proof. repeat split. Qed.

Lemma no_vehicles_text (zip_code : string) :
  json_dumps None None
    (PDict [("message", PStr ("No vehicles found for " ++ zip_code)%string);
            ("vehicles", PList [])])
  = Return ("{" ++ json_string "message" ++ ": "
            ++ json_string ("No vehicles found for " ++ zip_code)
            ++ ", " ++ json_string "vehicles" ++ ": []}")%string.
Proof.
  unfold json_dumps. simpl. unfold json_string.
  now rewrite !append_assoc.
Qed.

(** C8. When the ZIP query matches no vehicle, with or without a status
    filter, or when the store call fails, [search_fleet_by_zip] returns the
    JSON text of [{"message": "No vehicles found for <zip>", "vehicles": []}]
    and does not raise. *)
Theorem search_by_zip_without_match
    (t : fleet_table) (float_ : decimal -> string)
    (zip_code : string) (status : option string) :
  outage t <> None \/ filter (zip_matches zip_code status) (items t) = [] ->
  _search_by_zip t zip_code status = [] /\
  json_dumps None None
    (PDict [("message", PStr ("No vehicles found for " ++ zip_code)%string);
            ("vehicles", PList [])])
  = search_fleet_by_zip t float_ zip_code status /\
  search_fleet_by_zip t float_ zip_code status
  = Return ("{" ++ json_string "message" ++ ": "
            ++ json_string ("No vehicles found for " ++ zip_code)
            ++ ", " ++ json_string "vehicles" ++ ": []}")%string.
Proof.
  intros H.
  assert (E : _search_by_zip t zip_code status = []).
  { destruct (outage t) as [e|] eqn:O.
    - now apply (_search_by_zip_outage t zip_code status e).
    - destruct H as [H | H]; [congruence | ].
      now rewrite _search_by_zip_answer. }
  split; [exact E | ].
  unfold search_fleet_by_zip. rewrite E. split; [reflexivity | ].
  apply no_vehicles_text.
Qed.

Lemma search_by_zip_without_match_witness :
  (_search_by_zip sample_table "02101" (Some "maintenance") = [] /\
   json_dumps None None
     (PDict [("message", PStr "No vehicles found for 02101"); ("vehicles", PList [])])
   = search_fleet_by_zip sample_table float_sample "02101" (Some "maintenance") /\
   search_fleet_by_zip sample_table float_sample "02101" (Some "maintenance")
   = Return ("{" ++ json_string "message" ++ ": "
             ++ json_string "No vehicles found for 02101"
             ++ ", " ++ json_string "vehicles" ++ ": []}")%string)
  /\
  search_fleet_by_zip
    (FleetTable [camry] (Some (Exn OtherException "ResourceNotFoundException")))
    float_sample "02101" None
  = Return ("{" ++ json_string "message" ++ ": "
            ++ json_string "No vehicles found for 02101"
            ++ ", " ++ json_string "vehicles" ++ ": []}")%string.
Proof.
  split.
  - apply (search_by_zip_without_match sample_table float_sample
             "02101" (Some "maintenance")). right. reflexivity.
  - apply (search_by_zip_without_match
             (FleetTable [camry] (Some (Exn OtherException "ResourceNotFoundException")))
             float_sample "02101" None). left. discriminate.
Defined.

End FleetService.

(* ===================================================================== *)
(** ** The holiday and local-event tools *)
(* ===================================================================== *)

Module SignalFacts.
Import Py Fixtures PyFacts SignalTools.

Local Open Scope Z_scope.

Example add_days_leap : add_days (DateTime 2024 2 1 0 0 0) 30 = DateTime 2024 3 2 0 0 0.
Proof. reflexivity. Qed.
Example add_days_year_end :
  strftime_iso_z (add_days (DateTime 2023 12 15 23 59 59) 30) = "2024-01-14T23:59:59Z".
Proof. reflexivity. Qed.
Example range_defaults :
  date_range clock_sample None None = ("2026-11-04T09:05:07Z", "2026-12-04T09:05:07Z").
Proof. reflexivity. Qed.
Example range_given :
  date_range clock_sample (Some "2026-12-24") (Some "2026-12-31")
  = ("2026-12-24T00:00:00Z", "2026-12-31T23:59:59Z").
Proof. reflexivity. Qed.

Section Tools.
Variable TICKETMASTER_API_KEY : option string.
Variable now : nat -> datetime.
Variable requests_get_events : events_request -> outcome pyval.
Variable requests_get_holidays : Z -> outcome pyval.
Variable fromisoformat_month : string -> outcome Z.

(** Both tools answer every exception of their body with an error document. *)
Lemma get_local_events_returns (zip_code : string) (start_date end_date : option string)
    (size : Z) :
  returns (get_local_events TICKETMASTER_API_KEY now requests_get_events
             zip_code start_date end_date size).
Proof.
  unfold get_local_events, try_except.
  match goal with |- returns (match ?c with _ => _ end) => destruct c as [text|e] end.
  - apply returns_Return.
  - destruct (exn_cls e); simpl; apply returns_Return.
Qed.

Lemma get_national_holidays_returns (year month : option Z) :
  returns (get_national_holidays now requests_get_holidays fromisoformat_month
             year month).
Proof.
  unfold get_national_holidays, try_except.
  match goal with |- returns (match ?c with _ => _ end) => destruct c as [text|e] end.
  - apply returns_Return.
  - destruct (exn_cls e); simpl; apply returns_Return.
Qed.

(** With a start date given and no end date, the end of the range comes
    from the clock alone. *)
Lemma date_range_default_end (start_date : string) :
  date_range now (Some start_date) None
  = ((start_date ++ "T00:00:00Z")%string, strftime_iso_z (add_days (now 0%nat) 30)).
Proof. reflexivity. Qed.

End Tools.

(** C9. With the clock at 2026-11-04 09:05:07, a start date 2030-01-01 and
    no end date, the range sent to the events service ends at
    2026-12-04T09:05:07Z, thirty days after the clock reading, and not at
    2030-01-31, thirty days after the start date. *)
Theorem default_end_counts_from_clock :
  date_range clock_sample (Some "2030-01-01") None
  = ("2030-01-01T00:00:00Z", "2026-12-04T09:05:07Z") /\
  strftime_iso_z (add_days (DateTime 2030 1 1 0 0 0) 30) = "2030-01-31T00:00:00Z" /\
  get_local_events (Some "key") clock_sample echo_end "90001" (Some "2030-01-01") None 20
  = json_dumps None None
      (PDict [("error", PStr "Failed to fetch events: 2026-12-04T09:05:07Z");
              ("events", PList [])]).
Proof. repeat split. Qed.

End SignalFacts.

(* ===================================================================== *)
(** ** More facts about values and binds *)
(* ===================================================================== *)

Module ValueFacts.
Import Py Fixtures PyFacts.

(** Read a returning computation back through its binds and tests. *)
Ltac unbind :=
  repeat match goal with
         | H : bind ?c _ = Return _ |- _ =>
             let E := fresh "E" in
             destruct c eqn:E; cbn [bind] in H; [ | discriminate H]
         | H : (if ?b then _ else _) = Return _ |- _ =>
             let B := fresh "B" in destruct b eqn:B
         | H : @Return ?A ?a = Return ?b |- _ =>
             injection H as H; try subst a; try subst b
         end.

Lemma mapM_map {A B} (f : A -> outcome B) (g : A -> B) (l : list A) :
  (forall x, In x l -> f x = Return (g x)) -> mapM f l = Return (map g l).
Proof.
  induction l as [|x l IH]; intros H; [reflexivity | ].
  cbn [mapM map]. rewrite (H x (or_introl eq_refl)). cbn [bind].
  rewrite IH by (intros y Hy; apply H; now right). reflexivity.
Qed.

Lemma mapM_Forall2 {A B} (f : A -> outcome B) (l : list A) (ys : list B) :
  mapM f l = Return ys -> Forall2 (fun x y => f x = Return y) l ys.
Proof.
  revert ys. induction l as [|x l IH]; intros ys H.
  - injection H as <-. constructor.
  - cbn [mapM] in H. destruct (f x) as [y|] eqn:Fx; [ | discriminate].
    cbn [bind] in H. destruct (mapM f l) as [ys'|]; [ | discriminate].
    injection H as <-. constructor; [exact Fx | now apply IH].
Qed.

Lemma mapM_length {A B} (f : A -> outcome B) (l : list A) (ys : list B) :
  mapM f l = Return ys -> List.length ys = List.length l.
Proof. intros H. symmetry. eapply Forall2_length, mapM_Forall2, H. Qed.

Lemma mapM_returns {A B} (f : A -> outcome B) (l : list A) :
  Forall (fun x => returns (f x)) l -> returns (mapM f l).
Proof.
  induction 1 as [|x l [y Hy] _ [ys IH]]; [apply returns_Return | ].
  cbn [mapM]. rewrite Hy, IH. apply returns_Return.
Qed.

Lemma native_lookup (d : dict) (k : string) (x : pyval) :
  json_native (PDict d) = true -> lookup k d = Some x -> json_native x = true.
Proof.
  cbn [json_native]. induction d as [|[k' v] d IH]; [discriminate | ].
  cbn [forallb lookup snd]. intros H. apply andb_true_iff in H as [Hv Hd].
  destruct (String.eqb k' k); [now intros [= <-] | now apply IH].
Qed.

Lemma native_nth (l : list pyval) (i : nat) (x : pyval) :
  json_native (PList l) = true -> nth_error l i = Some x -> json_native x = true.
Proof.
  cbn [json_native]. rewrite forallb_forall. intros H E.
  apply H. eapply nth_error_In, E.
Qed.

Lemma native_getitem (v : pyval) (k : string) (x : pyval) :
  json_native v = true -> getitem v k = Return x -> json_native x = true.
Proof.
  destruct v; try discriminate. intros N. cbn [getitem].
  destruct (lookup k d) eqn:L; [ | discriminate]. intros [= <-].
  eapply native_lookup; eassumption.
Qed.

Lemma native_get (v : pyval) (k : string) (default x : pyval) :
  json_native v = true -> json_native default = true ->
  get v k default = Return x -> json_native x = true.
Proof.
  destruct v; try discriminate. intros N D. cbn [get].
  destruct (lookup k d) eqn:L; intros [= <-]; [ | exact D].
  eapply native_lookup; eassumption.
Qed.

Lemma native_getindex (v : pyval) (i : nat) (x : pyval) :
  json_native v = true -> getindex v i = Return x -> json_native x = true.
Proof.
  destruct v; try discriminate; intros N; cbn [getindex].
  - destruct (String.get i s); [ | discriminate]. now intros [= <-].
  - destruct (nth_error l i) eqn:L; [ | discriminate]. intros [= <-].
    eapply native_nth; eassumption.
Qed.

Lemma native_mapM {A} (f : A -> outcome pyval) (l : list A) (ys : list pyval) :
  (forall x y, f x = Return y -> json_native y = true) ->
  mapM f l = Return ys -> json_native (PList ys) = true.
Proof.
  intros Hf H. apply mapM_Forall2 in H. cbn [json_native].
  induction H as [|x y l ys Hxy _ IH]; [reflexivity | ].
  cbn [forallb]. now rewrite (Hf _ _ Hxy), IH.
Qed.

Lemma upper_lower (s : string) : upper (lower s) = upper s.
Proof. induction s as [|c s IH]; simpl; [reflexivity | now rewrite to_upper_lower, IH]. Qed.

Lemma upper_same_letters (s s' : string) : same_letters s s' -> upper s = upper s'.
Proof.
  unfold same_letters. intros H. now rewrite <- (upper_lower s), <- (upper_lower s'), H.
Qed.

End ValueFacts.

(* ===================================================================== *)
(** ** The weather tool and its handler *)
(* ===================================================================== *)

Module WeatherTool.
Import Py Gateway Fixtures Shapes PyFacts HandlerFacts ValueFacts WeatherLambda.

Section Tool.
Variable urlopen_json : weather_request -> outcome pyval.
Variables int_of_str int_of_float : string -> outcome Z.

Lemma forecast_day_native (daily : pyval) (i : nat) (row : pyval) :
  json_native daily = true -> forecast_day daily i = Return row ->
  json_native row = true.
Proof.
  intros N H. unfold forecast_day in H. unbind.
  repeat match goal with
         | H : getitem daily _ = Return ?x |- _ =>
             pose proof (native_getitem _ _ _ N H); clear H
         | H : getindex ?v _ = Return ?x, M : json_native ?v = true |- _ =>
             pose proof (native_getindex _ _ _ M H); clear H
         end.
  cbn [json_native forallb snd].
  repeat match goal with M : json_native _ = true |- _ => rewrite M; clear M end.
  reflexivity.
Qed.

(** What the tool returns is made of what the network answered. *)
Lemma get_weather_forecast_native (location : pyval) (days : Z) (document : pyval) :
  (forall r v, urlopen_json r = Return v -> json_native v = true) ->
  get_weather_forecast urlopen_json location days = Return document ->
  json_native document = true.
Proof.
  intros Hnet. unfold get_weather_forecast, try_except.
  destruct (get_weather_forecast_try urlopen_json location days) as [v|e] eqn:T.
  - intros [= <-]. unfold get_weather_forecast_try in T. unbind; [reflexivity | ].
    repeat match goal with
           | H : urlopen_json _ = Return ?v |- _ =>
               pose proof (Hnet _ _ H); clear H
           | H : getitem ?v _ = Return ?x, M : json_native ?v = true |- _ =>
               pose proof (native_getitem _ _ _ M H); clear H
           | H : getindex ?v _ = Return ?x, M : json_native ?v = true |- _ =>
               pose proof (native_getindex _ _ _ M H); clear H
           end.
    match goal with
    | H : mapM (forecast_day ?d) _ = Return ?f, M : json_native ?d = true |- _ =>
        pose proof (native_mapM _ _ _ (fun i y => forecast_day_native d i y M) H)
    end.
    cbn [json_native forallb snd] in *.
    repeat match goal with M : _ = true |- _ => rewrite M; clear M end.
    reflexivity.
  - destruct (exn_cls e); intros [= <-]; reflexivity.
Qed.

End Tool.

(** X1. The weather tool returns for every location, day count and
    network behaviour, and what it returns is either an error document with
    an empty forecast or a forecast document whose [forecast_days] is the
    length of its [forecast] list. *)
Theorem weather_tool_returns_shaped
    (urlopen_json : weather_request -> outcome pyval) (location : pyval) (days : Z) :
  exists document,
    get_weather_forecast urlopen_json location days = Return document /\
    (error_shaped "forecast" document \/ forecast_shaped document).
Proof.
  unfold get_weather_forecast, try_except.
  destruct (get_weather_forecast_try urlopen_json location days) as [v|e] eqn:T.
  - exists v. split; [reflexivity | ].
    unfold get_weather_forecast_try in T. unbind.
    + left. eexists. reflexivity.
    + right. repeat eexists.
  - destruct (exn_cls e); eexists; (split; [reflexivity | left; eexists; reflexivity]).
Qed.

Lemma bind_agree {A B} (c : outcome A) (k k' : A -> outcome B) :
  (forall a, c = Return a -> k a = k' a) -> bind c k = bind c k'.
Proof. destruct c; intros H; [now apply H | reflexivity]. Qed.

(** X2. The tool never asks for more than sixteen forecast days: two
    networks that agree on the geocoding requests and on the forecast
    requests of at most sixteen days give the same result, and asking for
    sixteen days or more is asking for sixteen. *)
Theorem weather_tool_asks_sixteen_days_at_most
    (urlopen_json urlopen_json' : weather_request -> outcome pyval)
    (location : pyval) (days : Z) :
  (forall r, within_forecast_limit r -> urlopen_json r = urlopen_json' r) ->
  get_weather_forecast urlopen_json location days
  = get_weather_forecast urlopen_json' location days
  /\ ((16 <= days)%Z ->
      get_weather_forecast urlopen_json location days
      = get_weather_forecast urlopen_json location 16).
Proof.
  intros H. split.
  - unfold get_weather_forecast. f_equal. unfold get_weather_forecast_try.
    apply bind_agree. intros name _.
    rewrite (H (GeocodeSearch name) I).
    repeat (apply bind_agree; intros ? _).
    match goal with |- (if ?b then _ else _) = _ => destruct b; [reflexivity | ] end.
    repeat (apply bind_agree; intros ? _).
    rewrite H by (cbn; apply Z.le_min_r). reflexivity.
  - intros Hd. unfold get_weather_forecast, get_weather_forecast_try.
    replace (Z.min days 16) with (Z.min 16 16) by lia. reflexivity.
Qed.

Lemma weather_tool_asks_sixteen_days_at_most_witness :
  get_weather_forecast open_meteo (PStr "Boston") 30
  = get_weather_forecast open_meteo (PStr "Boston") 30
  /\ ((16 <= 30)%Z ->
      get_weather_forecast open_meteo (PStr "Boston") 30
      = get_weather_forecast open_meteo (PStr "Boston") 16).
Proof.
  apply (weather_tool_asks_sixteen_days_at_most open_meteo open_meteo (PStr "Boston") 30).
  reflexivity.
Defined.

(** X3. When the geocoding service answers a mapping whose [results] are
    absent or empty, the tool returns the error document
    "Location '<name>' not found" with an empty forecast. *)
Theorem weather_tool_unknown_location
    (urlopen_json : weather_request -> outcome pyval) (name : string) (days : Z)
    (answer : dict) :
  urlopen_json (GeocodeSearch name) = Return (PDict answer) ->
  truthy (match lookup "results" answer with Some r => r | None => PNone end) = false ->
  get_weather_forecast urlopen_json (PStr name) days
  = Return (failure_document ("Location '" ++ name ++ "' not found") "forecast").
Proof.
  intros Hgeo Hres. unfold get_weather_forecast, get_weather_forecast_try.
  cbn [quote bind]. rewrite Hgeo. cbn [bind get]. rewrite Hres. reflexivity.
Qed.

Lemma weather_tool_unknown_location_witness :
  get_weather_forecast open_meteo (PStr "Nowhere-Nonexistent-City") 7
  = Return (failure_document "Location 'Nowhere-Nonexistent-City' not found" "forecast").
Proof.
  apply (weather_tool_unknown_location open_meteo "Nowhere-Nonexistent-City" 7
           [("generationtime_ms", PFloat "0.5")]); reflexivity.
Defined.

Lemma getindex_nth (l : list pyval) (i : nat) :
  (i < List.length l)%nat -> getindex (PList l) i = Return (nth i l PNone).
Proof.
  intros H. cbn [getindex]. now rewrite (nth_error_nth' l PNone H).
Qed.

(** X4. When the geocoding answer has a first result with a name and
    coordinates, and the forecast answer has a [daily] mapping whose six
    series are lists at least as long as [time], the tool returns the place
    with one forecast entry per date, each built from the six series at
    the same index, and [forecast_days] counts the dates. *)
Theorem weather_tool_forecast_rows
    (urlopen_json : weather_request -> outcome pyval) (name : string) (days : Z)
    (answer place : dict) (others : list pyval) (place_name latitude longitude : pyval)
    (weather daily : dict)
    (times temp_max temp_min precipitation probability codes : list pyval) :
  urlopen_json (GeocodeSearch name) = Return (PDict answer) ->
  lookup "results" answer = Some (PList (PDict place :: others)) ->
  lookup "latitude" place = Some latitude ->
  lookup "longitude" place = Some longitude ->
  lookup "name" place = Some place_name ->
  urlopen_json (DailyForecast latitude longitude (Z.min days 16)) = Return (PDict weather) ->
  lookup "daily" weather = Some (PDict daily) ->
  lookup "time" daily = Some (PList times) ->
  lookup "temperature_2m_max" daily = Some (PList temp_max) ->
  lookup "temperature_2m_min" daily = Some (PList temp_min) ->
  lookup "precipitation_sum" daily = Some (PList precipitation) ->
  lookup "precipitation_probability_max" daily = Some (PList probability) ->
  lookup "weathercode" daily = Some (PList codes) ->
  (List.length times <= List.length temp_max)%nat ->
  (List.length times <= List.length temp_min)%nat ->
  (List.length times <= List.length precipitation)%nat ->
  (List.length times <= List.length probability)%nat ->
  (List.length times <= List.length codes)%nat ->
  get_weather_forecast urlopen_json (PStr name) days
  = Return (PDict
      [("location", place_name); ("latitude", latitude); ("longitude", longitude);
       ("forecast_days", PInt (Z.of_nat (List.length times)));
       ("forecast",
        PList (map (forecast_row times temp_max temp_min precipitation probability codes)
                   (seq 0 (List.length times))))]).
Proof.
  intros Hgeo Hres Hlat Hlon Hname Hnet Hdaily Ht Hmax Hmin Hpre Hpro Hcod
         Lmax Lmin Lpre Lpro Lcod.
  unfold get_weather_forecast, get_weather_forecast_try.
  cbn [quote bind]. rewrite Hgeo. cbn [bind get getitem]. rewrite Hres.
  cbn [truthy negb bind getindex nth_error getitem].
  rewrite Hlat, Hlon, Hname. cbn [bind]. rewrite Hnet. cbn [bind getitem].
  rewrite Hdaily. cbn [bind getitem]. rewrite Ht. cbn [bind len].
  rewrite (mapM_map _ (forecast_row times temp_max temp_min precipitation probability codes)).
  - cbn [bind try_except]. now rewrite length_map, length_seq.
  - intros i Hi. apply in_seq in Hi. unfold forecast_day. cbn [getitem].
    rewrite Ht, Hmax, Hmin, Hpre, Hpro, Hcod. cbn [bind].
    rewrite !getindex_nth by lia. reflexivity.
Qed.

Lemma weather_tool_forecast_rows_witness :
  get_weather_forecast open_meteo (PStr "Boston") 7
  = Return (PDict
      [("location", PStr "Boston"); ("latitude", PFloat "42.35843");
       ("longitude", PFloat "-71.05977");
       ("forecast_days", PInt (Z.of_nat (List.length [PStr "2026-11-04"; PStr "2026-11-05"])));
       ("forecast",
        PList (map (forecast_row [PStr "2026-11-04"; PStr "2026-11-05"]
                      [PFloat "51.2"; PFloat "48.9"] [PFloat "40.1"; PFloat "37.4"]
                      [PFloat "0.0"; PFloat "2.4"] [PInt 5; PInt 70] [PInt 1; PInt 61])
                   (seq 0 (List.length [PStr "2026-11-04"; PStr "2026-11-05"]))))]).
Proof.
  eapply (weather_tool_forecast_rows open_meteo "Boston" 7); try reflexivity; simpl; lia.
Defined.

(** X5. An argument that is present but falsy (an empty string, zero,
    false, null, an empty list or mapping) is rejected like a missing one:
    both handlers answer 400 naming the argument. *)
Theorem falsy_argument_rejected
    (weather_urlopen : weather_request -> outcome pyval)
    (int_of_str int_of_float : string -> outcome Z)
    (api_key : option string)
    (flight_urlopen : FlightLambda.flight_request -> outcome pyval)
    (str_ : pyval -> string)
    (event : event) (context : lambda_context) (value : pyval) :
  json_native (PDict event) = true ->
  truthy value = false ->
  (get_tool_name context = Return "get_weather_forecast" ->
   lookup "location" event = Some value ->
   lambda_handler weather_urlopen int_of_str int_of_float event context
   = Return (Response 400 (error_body "location parameter is required")))
  /\
  (FlightLambda.get_tool_name context = Return "get_flight_traffic" ->
   lookup "airport_code" event = Some value ->
   FlightLambda.lambda_handler api_key flight_urlopen str_ event context
   = Return (Response 400 (error_body "airport_code parameter is required"))).
Proof.
  intros Hev Hfalsy. split; intros Hname Harg.
  - apply weather_missing_location; try assumption.
    unfold get_named_parameter. now rewrite Harg.
  - apply flight_missing_airport_code; try assumption.
    unfold FlightLambda.get_named_parameter. now rewrite Harg.
Qed.

Lemma falsy_argument_rejected_witness :
  lambda_handler offline no_parse no_parse [("location", PStr EmptyString)]
    (context_for "WeatherTarget___get_weather_forecast")
  = Return (Response 400 (error_body "location parameter is required"))
  /\
  FlightLambda.lambda_handler None offline str_sample [("airport_code", PInt 0)]
    (context_for "FlightTarget___get_flight_traffic")
  = Return (Response 400 (error_body "airport_code parameter is required")).
Proof.
  split.
  - apply (falsy_argument_rejected offline no_parse no_parse None offline str_sample
             [("location", PStr EmptyString)]
             (context_for "WeatherTarget___get_weather_forecast") (PStr EmptyString));
      reflexivity.
  - apply (falsy_argument_rejected offline no_parse no_parse None offline str_sample
             [("airport_code", PInt 0)]
             (context_for "FlightTarget___get_flight_traffic") (PInt 0));
      reflexivity.
Defined.

(** X6. For its own tool, a truthy location, a day count that is absent
    (then 7) or that [int] converts, and a network whose answers are decoded
    JSON, the weather handler answers 200 with the JSON text of the tool's
    document as body, whether that document is a forecast or an error. *)
Theorem weather_handler_answers_200
    (urlopen_json : weather_request -> outcome pyval)
    (int_of_str int_of_float : string -> outcome Z)
    (event : event) (context : lambda_context) (location : pyval) (n : Z) :
  (forall r v, urlopen_json r = Return v -> json_native v = true) ->
  json_native (PDict event) = true ->
  get_tool_name context = Return "get_weather_forecast" ->
  lookup "location" event = Some location -> truthy location = true ->
  (get_named_parameter event "days" = PNone /\ n = 7%Z) \/
  (get_named_parameter event "days" <> PNone /\
   int_ int_of_str int_of_float (get_named_parameter event "days") = Return n) ->
  exists document body,
    get_weather_forecast urlopen_json location n = Return document /\
    json_dumps None None document = Return body /\
    lambda_handler urlopen_json int_of_str int_of_float event context
    = Return (Response 200 body).
Proof.
  intros Hnet Hev Hname Hloc Htruthy Hdays.
  destruct (get_weather_forecast_returns urlopen_json location n) as [document Hdoc].
  pose proof (get_weather_forecast_native urlopen_json location n document Hnet Hdoc) as N.
  destruct (json_dumps_native None document N) as [body Hbody].
  exists document, body. repeat split; try assumption.
  unfold lambda_handler, lambda_handler_try.
  destruct (json_dumps_native None _ Hev) as [text ->]. cbn [bind].
  rewrite Hname. cbn [bind]. rewrite String.eqb_refl.
  assert (Hp : get_named_parameter event "location" = location)
    by (unfold get_named_parameter; now rewrite Hloc).
  cbv zeta. rewrite Hp, Htruthy. cbn [negb].
  assert (Hn : match get_named_parameter event "days" with
               | PNone => Return 7%Z
               | _ => int_ int_of_str int_of_float (get_named_parameter event "days")
               end = Return n).
  { destruct Hdays as [[-> ->] | [Hne Hint]]; [reflexivity | ].
    destruct (get_named_parameter event "days"); try exact Hint. now elim Hne. }
  rewrite Hn. cbn [bind]. rewrite Hdoc. cbn [bind]. rewrite Hbody. reflexivity.
Qed.

Lemma weather_handler_answers_200_witness :
  exists document body,
    get_weather_forecast open_meteo (PStr "Boston") 3 = Return document /\
    json_dumps None None document = Return body /\
    lambda_handler open_meteo int_sample no_parse
      [("location", PStr "Boston"); ("days", PStr "3")]
      (context_for "WeatherTarget___get_weather_forecast")
    = Return (Response 200 body).
Proof.
  apply (weather_handler_answers_200 open_meteo int_sample no_parse
           [("location", PStr "Boston"); ("days", PStr "3")]
           (context_for "WeatherTarget___get_weather_forecast") (PStr "Boston") 3).
  - intros [name | lat lon k] v; cbn [open_meteo].
    + destruct (String.eqb name "Boston"); now intros [= <-].
    + now intros [= <-].
  - reflexivity.
  - reflexivity.
  - reflexivity.
  - reflexivity.
  - right. split; [discriminate | reflexivity].
Defined.

(** X7. When the day count is given and [int] rejects it, the weather
    handler answers 500 with the message of that exception; the tool is not
    called. *)
Theorem weather_handler_rejects_days
    (urlopen_json : weather_request -> outcome pyval)
    (int_of_str int_of_float : string -> outcome Z)
    (event : event) (context : lambda_context) (location days : pyval) (e : exn) :
  json_native (PDict event) = true ->
  get_tool_name context = Return "get_weather_forecast" ->
  lookup "location" event = Some location -> truthy location = true ->
  lookup "days" event = Some days -> days <> PNone ->
  int_ int_of_str int_of_float days = Raise e ->
  lambda_handler urlopen_json int_of_str int_of_float event context
  = Return (Response 500 (error_body ("Internal error: " ++ exn_str e))).
Proof.
  intros Hev Hname Hloc Htruthy Hdays Hne Hint.
  apply weather_failure. unfold lambda_handler_try.
  destruct (json_dumps_native None _ Hev) as [text ->]. cbn [bind].
  rewrite Hname. cbn [bind]. rewrite String.eqb_refl.
  unfold get_named_parameter. rewrite Hloc, Htruthy, Hdays. cbn [negb].
  destruct days; try (now elim Hne); rewrite Hint; reflexivity.
Qed.

Lemma weather_handler_rejects_days_witness :
  lambda_handler offline int_sample no_parse
    [("location", PStr "Boston"); ("days", PStr "three")]
    (context_for "WeatherTarget___get_weather_forecast")
  = Return (Response 500 (error_body
      ("Internal error: " ++ "invalid literal for int() with base 10: 'three'"))).
Proof.
  apply (weather_handler_rejects_days offline int_sample no_parse
           [("location", PStr "Boston"); ("days", PStr "three")]
           (context_for "WeatherTarget___get_weather_forecast")
           (PStr "Boston") (PStr "three")
           (Exn ValueError "invalid literal for int() with base 10: 'three'"));
    try reflexivity; discriminate.
Defined.

End WeatherTool.

(* ===================================================================== *)
(** ** The flight tool and its handler *)
(* ===================================================================== *)

Module FlightTool.
Import Py Gateway Fixtures Shapes PyFacts HandlerFacts ValueFacts FlightLambda.

(** X8. Without a usable API key (unset, empty, or the placeholder text)
    the flight tool returns, for every airport code that is text and
    whatever the network would answer, the document that reports the
    missing key, with the airport code in upper case and no flights. *)
Theorem flight_tool_without_key
    (api_key : option string) (urlopen_json : flight_request -> outcome pyval)
    (str_ : pyval -> string) (code : string) :
  api_key = None \/ api_key = Some EmptyString
  \/ api_key = Some "your_aviationstack_api_key_here" ->
  get_flight_traffic api_key urlopen_json str_ (PStr code)
  = Return (key_missing_document (upper code)).
Proof. intros [-> | [-> | ->]]; reflexivity. Qed.

Lemma flight_tool_without_key_witness :
  get_flight_traffic (Some "your_aviationstack_api_key_here") aviationstack str_sample
    (PStr "lax")
  = Return (key_missing_document (upper "lax")).
Proof.
  apply (flight_tool_without_key (Some "your_aviationstack_api_key_here")
           aviationstack str_sample "lax").
  right. right. reflexivity.
Defined.

(** X9. The flight tool reads the airport code through [upper] only: two
    codes that differ in letter case give the same result. *)
Theorem flight_tool_ignores_case
    (api_key : option string) (urlopen_json : flight_request -> outcome pyval)
    (str_ : pyval -> string) (code code' : string) :
  same_letters code code' ->
  get_flight_traffic api_key urlopen_json str_ (PStr code)
  = get_flight_traffic api_key urlopen_json str_ (PStr code').
Proof.
  intros H. unfold get_flight_traffic, get_flight_traffic_try.
  cbn [upper_method]. now rewrite (upper_same_letters _ _ H).
Qed.

Lemma flight_tool_ignores_case_witness :
  get_flight_traffic (Some "key") aviationstack str_sample (PStr "lax")
  = get_flight_traffic (Some "key") aviationstack str_sample (PStr "LaX").
Proof.
  apply (flight_tool_ignores_case (Some "key") aviationstack str_sample "lax" "LaX").
  reflexivity.
Defined.

(** X10. An airport code that is truthy but not text (a number, a list)
    makes the flight tool raise, with or without an API key, because
    [upper] is called outside the [try] and again in its handlers; the
    Lambda handler turns that into a 500 response. *)
Theorem flight_handler_rejects_non_text
    (api_key : option string) (urlopen_json : flight_request -> outcome pyval)
    (str_ : pyval -> string)
    (event : event) (context : lambda_context) (code : pyval) :
  json_native (PDict event) = true ->
  get_tool_name context = Return "get_flight_traffic" ->
  lookup "airport_code" event = Some code -> truthy code = true ->
  (forall s, code <> PStr s) ->
  get_flight_traffic api_key urlopen_json str_ code
  = Raise (Exn AttributeError
             ("'" ++ type_name code ++ "' object has no attribute 'upper'"))
  /\ lambda_handler api_key urlopen_json str_ event context
     = Return (Response 500 (error_body
         ("Internal error: '" ++ type_name code ++ "' object has no attribute 'upper'"))).
Proof.
  intros Hev Hname Hcode Htruthy Hnot.
  pose proof (get_flight_traffic_raises api_key urlopen_json str_ code Hnot) as Hraise.
  split; [exact Hraise | ].
  apply (flight_failure api_key urlopen_json str_ event context
           (Exn AttributeError
              ("'" ++ type_name code ++ "' object has no attribute 'upper'"))).
  unfold lambda_handler_try.
  destruct (json_dumps_native None _ Hev) as [text ->]. cbn [bind].
  rewrite Hname. cbn [bind]. rewrite String.eqb_refl.
  unfold get_named_parameter. rewrite Hcode, Htruthy. cbn [negb].
  rewrite Hraise. reflexivity.
Qed.

Lemma flight_handler_rejects_non_text_witness :
  get_flight_traffic (Some "key") aviationstack str_sample (PList [PStr "LAX"])
  = Raise (Exn AttributeError "'list' object has no attribute 'upper'")
  /\ lambda_handler (Some "key") aviationstack str_sample
       [("airport_code", PList [PStr "LAX"])]
       (context_for "FlightTarget___get_flight_traffic")
     = Return (Response 500 (error_body
         "Internal error: 'list' object has no attribute 'upper'")).
Proof.
  apply (flight_handler_rejects_non_text (Some "key") aviationstack str_sample
           [("airport_code", PList [PStr "LAX"])]
           (context_for "FlightTarget___get_flight_traffic") (PList [PStr "LAX"]));
    try reflexivity; discriminate.
Defined.

Lemma nested_get_returns (d : dict) (outer inner : string) (default : pyval) :
  mapping_or_absent outer d ->
  returns (x <- get (PDict d) outer (PDict []) ;; get x inner default).
Proof.
  intros [H | [m H]]; cbn [get]; rewrite H; cbn [bind get]; apply returns_Return.
Qed.

Lemma arrival_returns (flight : pyval) : flight_record flight -> returns (arrival flight).
Proof.
  intros (d & -> & Hf & Ha & Hd & Hr). unfold arrival.
  destruct (nested_get_returns d "flight" "iata" (PStr "N/A") Hf) as [x1 ->].
  destruct (nested_get_returns d "airline" "name" (PStr "N/A") Ha) as [x2 ->].
  destruct (nested_get_returns d "departure" "iata" (PStr "N/A") Hd) as [x3 ->].
  destruct (nested_get_returns d "departure" "airport" (PStr "N/A") Hd) as [x4 ->].
  destruct (nested_get_returns d "arrival" "scheduled" (PStr "N/A") Hr) as [x5 ->].
  cbn [bind get]. apply returns_Return.
Qed.

(** X11. When the service answers a mapping without [error] whose [data]
    (an empty list when absent) is a list of flight records, the tool
    returns one arrival per record and [total_arrivals_shown] is the number
    of records. *)
Theorem flight_tool_counts_arrivals
    (api_key : option string) (urlopen_json : flight_request -> outcome pyval)
    (str_ : pyval -> string) (key code : string) (answer : dict) (flights : list pyval) :
  key_configured api_key = Some key ->
  urlopen_json (FlightRequest key (upper code) 10) = Return (PDict answer) ->
  lookup "error" answer = None ->
  match lookup "data" answer with Some x => x | None => PList [] end = PList flights ->
  Forall flight_record flights ->
  exists arrivals,
    get_flight_traffic api_key urlopen_json str_ (PStr code)
    = Return (PDict
        [("airport", PStr (upper code));
         ("total_arrivals_shown", PInt (Z.of_nat (List.length flights)));
         ("arrivals", PList arrivals);
         ("note", PStr "Showing recent/upcoming arrivals. High arrival count indicates increased rental demand.")])
    /\ Forall2 (fun flight row => arrival flight = Return row) flights arrivals.
Proof.
  intros Hkey Hnet Herr Hdata Hrec.
  destruct (mapM_returns arrival flights) as [arrivals Harr].
  { eapply Forall_impl; [ | exact Hrec]. apply arrival_returns. }
  exists arrivals. split; [ | now apply mapM_Forall2].
  unfold get_flight_traffic. rewrite Hkey. unfold get_flight_traffic_try.
  cbn [upper_method bind]. rewrite Hnet. cbn [bind has]. rewrite Herr.
  cbn [bind get]. rewrite Hdata. cbn [iterate bind]. rewrite Harr.
  cbn [bind try_except]. now rewrite (mapM_length _ _ _ Harr).
Qed.

Lemma flight_tool_counts_arrivals_witness :
  exists arrivals,
    get_flight_traffic (Some "key") aviationstack str_sample (PStr "lax")
    = Return (PDict
        [("airport", PStr (upper "lax"));
         ("total_arrivals_shown",
          PInt (Z.of_nat (List.length
            [PDict [("flight", PDict [("iata", PStr "AA100")]);
                    ("airline", PDict [("name", PStr "American Airlines")]);
                    ("departure", PDict [("iata", PStr "JFK")]);
                    ("flight_status", PStr "landed")];
             PDict [("flight_status", PStr "scheduled")]])));
         ("arrivals", PList arrivals);
         ("note", PStr "Showing recent/upcoming arrivals. High arrival count indicates increased rental demand.")])
    /\ Forall2 (fun flight row => arrival flight = Return row)
         [PDict [("flight", PDict [("iata", PStr "AA100")]);
                 ("airline", PDict [("name", PStr "American Airlines")]);
                 ("departure", PDict [("iata", PStr "JFK")]);
                 ("flight_status", PStr "landed")];
          PDict [("flight_status", PStr "scheduled")]]
         arrivals.
Proof.
  apply (flight_tool_counts_arrivals (Some "key") aviationstack str_sample "key" "lax"
           [("data",
             PList [PDict [("flight", PDict [("iata", PStr "AA100")]);
                           ("airline", PDict [("name", PStr "American Airlines")]);
                           ("departure", PDict [("iata", PStr "JFK")]);
                           ("flight_status", PStr "landed")];
                    PDict [("flight_status", PStr "scheduled")]])]);
    try reflexivity.
  repeat constructor; eexists; (split; [reflexivity | ]);
    unfold mapping_or_absent; cbn [lookup String.eqb Ascii.eqb Bool.eqb];
    repeat split; eauto.
Defined.

(** X12. When the service answers a mapping whose [error] is a mapping,
    the tool returns an error document "API Error: <info>" for the airport,
    with "Unknown error" as the information when [info] is absent, and no
    flights. *)
Theorem flight_tool_reports_api_error
    (api_key : option string) (urlopen_json : flight_request -> outcome pyval)
    (str_ : pyval -> string) (key code : string) (answer failure : dict) :
  key_configured api_key = Some key ->
  urlopen_json (FlightRequest key (upper code) 10) = Return (PDict answer) ->
  lookup "error" answer = Some (PDict failure) ->
  get_flight_traffic api_key urlopen_json str_ (PStr code)
  = Return (PDict
      [("error", PStr ("API Error: "
          ++ str_ (match lookup "info" failure with
                   | Some info => info
                   | None => PStr "Unknown error"
                   end)));
       ("airport", PStr (upper code)); ("flights", PList [])]).
Proof.
  intros Hkey Hnet Herr.
  unfold get_flight_traffic. rewrite Hkey. unfold get_flight_traffic_try.
  cbn [upper_method bind]. rewrite Hnet. cbn [bind has getitem]. rewrite Herr.
  reflexivity.
Qed.

Lemma flight_tool_reports_api_error_witness :
  get_flight_traffic (Some "key") aviationstack str_sample (PStr "zzz")
  = Return (PDict
      [("error", PStr ("API Error: "
          ++ str_sample (match lookup "info" [("info", PStr "Invalid airport")] with
                         | Some info => info
                         | None => PStr "Unknown error"
                         end)));
       ("airport", PStr (upper "zzz")); ("flights", PList [])]).
Proof.
  apply (flight_tool_reports_api_error (Some "key") aviationstack str_sample
           "key" "zzz" [("error", PDict [("info", PStr "Invalid airport")])]);
    reflexivity.
Defined.

End FlightTool.

(* ===================================================================== *)
(** ** The tool name of an invocation *)
(* ===================================================================== *)

Module ToolName.
Import Py Gateway Fixtures Shapes PyFacts HandlerFacts ValueFacts.

Lemma prefix3_inv (s : string) :
  String.prefix "___" s = true -> exists rest, s = "___" ++ rest.
Proof.
  destruct s as [|a [|b [|c rest]]]; cbn [String.prefix]; intros H;
    repeat match type of H with
           | context [ascii_dec ?x ?y] => destruct (ascii_dec x y); subst
           end; try discriminate H.
  eexists. reflexivity.
Qed.

(** The first separator of a string that holds one. *)
Lemma first_separator (s : string) :
  contains "___" s = true ->
  exists target rest,
    s = target ++ "___" ++ rest /\ contains "___" (target ++ "__") = false.
Proof.
  induction s as [|c s IH]; intros H; [discriminate | ].
  destruct (String.prefix "___" (String c s)) eqn:P.
  - destruct (prefix3_inv _ P) as [rest E]. now exists EmptyString, rest.
  - cbn [contains] in H. rewrite P in H. cbn [orb] in H.
    destruct (IH H) as (target & rest & -> & Hfree).
    exists (String c target), rest. split; [reflexivity | ].
    change (String c target ++ "__") with (String c (target ++ "__")).
    cbn [contains]. rewrite <- (prefix3_window c target rest), P, Hfree. reflexivity.
Qed.

Lemma prefix_append_r (sep a b : string) :
  String.prefix sep a = true -> String.prefix sep (a ++ b) = true.
Proof.
  revert a. induction sep as [|c sep IH]; intros a H.
  - now destruct (a ++ b).
  - destruct a as [|x a]; [discriminate | ]. simpl in *.
    destruct (ascii_dec c x); [now apply IH | discriminate].
Qed.

Lemma contains_append_false (a b : string) :
  contains "___" (a ++ b) = false -> contains "___" a = false.
Proof.
  induction a as [|c a IH]; intros H; [reflexivity | ].
  change (String c a ++ b) with (String c (a ++ b)) in H.
  apply contains_false_inv in H as [P H]. cbn [contains].
  rewrite (IH H), orb_false_r.
  destruct (String.prefix "___" (String c a)) eqn:Q; [ | reflexivity].
  apply (prefix_append_r _ _ b) in Q.
  change (String c a ++ b) with (String c (a ++ b)) in Q. congruence.
Qed.

(** X13. [get_tool_name] never raises.  When the identifier holds a
    separator, the name it returns is the text between the first separator
    and the next one (or the end): the identifier reads
    [target ++ "___" ++ name ++ tail] where no separator starts inside
    [target], [name] holds none, and [tail] is empty or starts with one. *)
Theorem tool_name_follows_first_separator (context : lambda_context) :
  exists name,
    WeatherLambda.get_tool_name context = Return name /\
    FlightLambda.get_tool_name context = Return name /\
    forall id,
      tool_identifier context = Some id -> contains "___" id = true ->
      exists target tail,
        id = target ++ "___" ++ name ++ tail /\
        contains "___" (target ++ "__") = false /\
        contains "___" name = false /\
        (tail = EmptyString \/ String.prefix "___" tail = true).
Proof.
  destruct (tool_identifier context) as [id|] eqn:Hid.
  - destruct (contains "___" id) eqn:C.
    + destruct (first_separator id C) as (target & rest & E & Hfree).
      pose proof (get_tool_name_identifier context id Hid) as Hname.
      rewrite C in Hname. unfold split in Hname. subst id.
      rewrite split_from_first in Hname by assumption.
      destruct (contains "___" rest) eqn:C2.
      * destruct (first_separator rest C2) as (name & rest2 & -> & Hfree2).
        rewrite split_from_first in Hname by assumption.
        exists name. repeat split; try exact Hname.
        intros id' [= <-] _. exists target, ("___" ++ rest2).
        repeat split; try assumption.
        -- now apply contains_append_false in Hfree2.
        -- right. apply prefix_append.
      * rewrite split_from_none in Hname by assumption.
        exists rest. repeat split; try exact Hname.
        intros id' [= <-] _. exists target, EmptyString.
        rewrite append_nil_r. repeat split; try assumption. now left.
    + pose proof (get_tool_name_identifier context id Hid) as Hname.
      rewrite C in Hname. exists id. repeat split; try exact Hname.
      intros id' [= <-]. congruence.
  - exists EmptyString. pose proof (get_tool_name_no_identifier context Hid) as Hname.
    repeat split; try exact Hname. discriminate.
Qed.

Lemma tool_name_follows_first_separator_witness :
  exists name,
    WeatherLambda.get_tool_name (context_for "Gateway___get_weather_forecast___v2")
    = Return name /\
    FlightLambda.get_tool_name (context_for "Gateway___get_weather_forecast___v2")
    = Return name /\
    forall id,
      tool_identifier (context_for "Gateway___get_weather_forecast___v2") = Some id ->
      contains "___" id = true ->
      exists target tail,
        id = target ++ "___" ++ name ++ tail /\
        contains "___" (target ++ "__") = false /\
        contains "___" name = false /\
        (tail = EmptyString \/ String.prefix "___" tail = true).
Proof.
  apply (tool_name_follows_first_separator
           (context_for "Gateway___get_weather_forecast___v2")).
Defined.

Example tool_name_between_separators :
  WeatherLambda.get_tool_name (context_for "Gateway___get_weather_forecast___v2")
  = Return "get_weather_forecast".
Proof. reflexivity. Qed.

End ToolName.

(* ===================================================================== *)
(** ** More about the fleet queries *)
(* ===================================================================== *)

Module FleetQueries.
Import Py Fixtures Shapes PyFacts ValueFacts FleetTools FleetFacts.

Local Open Scope list_scope.


(** X14. While the store answers, [search_by_zip] returns exactly the
    indexed records of the table that are in the requested ZIP code and,
    when a non-empty status is given, have that status. *)
Theorem zip_query_returns_the_matching_records
    (t : fleet_table) (zip_code : string) (status : option string) (v : dict) :
  outage t = None ->
  In v (search_by_zip t zip_code status) <->
  In v (items t) /\
  lookup "zip_code" v = Some (PStr zip_code) /\
  exists s, lookup "status" v = Some (PStr s) /\
            forall st, given status = Some st -> s = st.
Proof.
  intros Hup. unfold search_by_zip. rewrite _search_by_zip_answer by assumption.
  rewrite filter_In. unfold zip_matches, in_zip_code_index. cbn [holds].
  destruct (lookup "zip_code" v) as [[| | | | |z| |]|];
    destruct (lookup "status" v) as [[| | | | |s| |]|];
    cbn [andb]; try (split; [intros [_ [=]] | intros (_ & [=] & _)]; fail);
    try (split; [intros [_ [=]] | intros (_ & _ & s' & [=] & _)]; fail).
  destruct (String.eqb_spec z zip_code) as [-> | Hz]; cbn [andb].
  - destruct (given status) as [st|].
    + destruct (String.eqb_spec s st) as [-> | Hs].
      * split; [intros [Hin _] | intros [Hin _]]; repeat split; try assumption.
        exists st. split; [reflexivity | now intros ? [= <-]].
      * split; [intros [_ [=]] | ].
        intros (_ & _ & s' & [= <-] & H). now elim Hs; apply H.
    + split; [intros [Hin _] | intros [Hin _]]; repeat split; try assumption.
      exists s. split; [reflexivity | discriminate].
  - split; [intros [_ [=]] | ]. intros (_ & [= E] & _). now elim Hz.
Qed.

Lemma zip_query_returns_the_matching_records_witness :
  In bmw (search_by_zip sample_table "02101" (Some "rented")) <->
  In bmw (items sample_table) /\
  lookup "zip_code" bmw = Some (PStr "02101") /\
  exists s, lookup "status" bmw = Some (PStr s) /\
            forall st, given (Some "rented") = Some st -> s = st.
Proof.
  apply (zip_query_returns_the_matching_records sample_table "02101" (Some "rented") bmw).
  reflexivity.
Defined.

Lemma filter_length {A} (f : A -> bool) (l : list A) :
  (List.length (filter f l) <= List.length l)%nat.
Proof.
  induction l as [|x l IH]; [apply Nat.le_refl | ].
  cbn [filter]. destruct (f x); cbn [List.length]; lia.
Qed.

(** X15. A scan returns at most 100 vehicles, all of them among the first
    100 items of the table, whatever the filters and whether or not the
    store answers. *)
Theorem scan_result_is_bounded
    (t : fleet_table) (make model category status : option string) :
  (List.length (_search_vehicles t make model category status) <= 100)%nat /\
  forall v, In v (_search_vehicles t make model category status) ->
            In v (firstn 100 (items t)).
Proof.
  destruct (outage t) as [e|] eqn:O.
  - rewrite (_search_vehicles_outage t make model category status e O).
    split; [cbn; lia | intros v []].
  - rewrite _search_vehicles_answer by assumption. split.
    + etransitivity; [apply filter_length | apply firstn_le_length].
    + intros v Hv. now apply filter_In in Hv.
Qed.

Lemma scan_result_is_bounded_witness :
  (List.length (_search_vehicles crowded_table None None (Some "sedan") None) <= 100)%nat /\
  forall v, In v (_search_vehicles crowded_table None None (Some "sedan") None) ->
            In v (firstn 100 (items crowded_table)).
Proof.
  apply (scan_result_is_bounded crowded_table None None (Some "sedan") None).
Defined.

(** X16. When the scan selects nothing, or the store call fails,
    [search_vehicles_general] returns the JSON text of a message that lists
    the given search terms, with an empty vehicle list. *)
Theorem general_search_without_match
    (t : fleet_table) (float_ : decimal -> string)
    (make model category status : option string) :
  outage t <> None \/
  filter (selects make model category status) (firstn 100 (items t)) = [] ->
  search_vehicles_general t float_ make model category status
  = Return ("{" ++ json_string "message" ++ ": "
            ++ json_string ("No vehicles found matching "
                            ++ join ", " (search_terms make model category status))
            ++ ", " ++ json_string "vehicles" ++ ": []}")%string.
Proof.
  intros H.
  assert (E : _search_vehicles t make model category status = []).
  { destruct (outage t) as [e|] eqn:O.
    - now apply (_search_vehicles_outage t make model category status e).
    - destruct H as [H | H]; [congruence | ].
      now rewrite _search_vehicles_answer. }
  unfold search_vehicles_general. rewrite E.
  unfold json_dumps. simpl. unfold json_string.
  now rewrite !append_assoc.
Qed.

Lemma general_search_without_match_witness :
  search_vehicles_general sample_table float_sample (Some "Tesla") None (Some "SUV") None
  = Return ("{" ++ json_string "message" ++ ": "
            ++ json_string ("No vehicles found matching "
                            ++ join ", " (search_terms (Some "Tesla") None (Some "SUV") None))
            ++ ", " ++ json_string "vehicles" ++ ": []}")%string.
Proof.
  apply (general_search_without_match sample_table float_sample
           (Some "Tesla") None (Some "SUV") None).
  right. reflexivity.
Defined.

Example general_search_terms :
  join ", " (search_terms (Some "Tesla") None (Some "SUV") (Some EmptyString))
  = "make: Tesla, category: SUV"%string.
Proof. reflexivity. Qed.

(** X17. When the ZIP query matches nothing, or the store call fails,
    [get_summary] returns the error document for that ZIP code and
    [get_fleet_summary] its JSON text; neither touches pandas. *)
Theorem summary_without_vehicles
    (t : fleet_table) (float_ : decimal -> string)
    (series_mean value_counts : list pyval -> outcome pyval)
    (round_ : pyval -> Z -> outcome pyval) (zip_code : string) :
  outage t <> None \/ filter (zip_matches zip_code None) (items t) = [] ->
  get_summary t series_mean value_counts round_ zip_code
  = Return (PDict [("error", PStr ("No vehicles found for " ++ zip_code)%string)]) /\
  get_fleet_summary t float_ series_mean value_counts round_ zip_code
  = Return ("{" ++ json_string "error" ++ ": "
            ++ json_string ("No vehicles found for " ++ zip_code) ++ "}")%string.
Proof.
  intros H.
  assert (E : _search_by_zip t zip_code None = []).
  { destruct (outage t) as [e|] eqn:O.
    - now apply (_search_by_zip_outage t zip_code None e).
    - destruct H as [H | H]; [congruence | ].
      now rewrite _search_by_zip_answer. }
  unfold get_fleet_summary, get_summary, _get_summary. rewrite E.
  split; [reflexivity | ].
  cbn [bind]. unfold json_dumps. simpl. unfold json_string.
  now rewrite !append_assoc.
Qed.

Lemma summary_without_vehicles_witness :
  get_summary sample_table mean_sample counts_sample round_sample "99999"
  = Return (PDict [("error", PStr "No vehicles found for 99999")]) /\
  get_fleet_summary sample_table float_sample mean_sample counts_sample round_sample "99999"
  = Return ("{" ++ json_string "error" ++ ": "
            ++ json_string "No vehicles found for 99999" ++ "}")%string.
Proof.
  apply (summary_without_vehicles sample_table float_sample mean_sample counts_sample
           round_sample "99999").
  right. reflexivity.
Defined.

Lemma with_status_cons (status : string) (v : dict) (l : list dict) :
  with_status status (v :: l) = (with_status status [v] + with_status status l)%nat.
Proof.
  unfold with_status. cbn [filter].
  destruct (lookup "status" v) as [[| | | | |s| |]|]; try reflexivity.
  now destruct (String.eqb s status).
Qed.

Lemma status_share_enumerated (v : dict) :
  (status_share v = 1%nat /\ status_enumerated v)
  \/ (status_share v = 0%nat /\ ~ status_enumerated v).
Proof.
  unfold status_share, with_status, status_enumerated. cbn [filter].
  destruct (lookup "status" v) as [[| | | | |s| |]|];
    try (right; split; [reflexivity | intros [H | [H | H]]; discriminate H]; fail).
  destruct (String.eqb_spec s "available") as [-> | Ha];
    [left; split; [reflexivity | now left] | ].
  destruct (String.eqb_spec s "rented") as [-> | Hr];
    [left; split; [reflexivity | right; now left] | ].
  destruct (String.eqb_spec s "maintenance") as [-> | Hm];
    [left; split; [reflexivity | right; now right] | ].
  right. split; [reflexivity | ].
  intros [[= H] | [[= H] | [= H]]]; congruence.
Qed.

Lemma status_counts_bound (vehicles : list dict) :
  (with_status "available" vehicles + with_status "rented" vehicles
   + with_status "maintenance" vehicles <= List.length vehicles)%nat
  /\ ((with_status "available" vehicles + with_status "rented" vehicles
       + with_status "maintenance" vehicles = List.length vehicles)%nat
      <-> Forall status_enumerated vehicles).
Proof.
  induction vehicles as [|v l [IHle IHiff]].
  - split; [apply Nat.le_refl | ]. split; [constructor | reflexivity].
  - rewrite !(with_status_cons _ v l). cbn [List.length].
    destruct (status_share_enumerated v) as [[Hs Hv] | [Hs Hv]];
      unfold status_share in Hs.
    + split; [lia | ]. split.
      * intros H. constructor; [exact Hv | ]. apply IHiff. lia.
      * intros H. inversion H as [|? ? _ Hl]; subst. apply IHiff in Hl. lia.
    + split; [lia | ]. split.
      * intros H. lia.
      * intros H. inversion H as [|? ? Hv' _]; subst. contradiction.
Qed.

Lemma indexed_status_text (t : fleet_table) (zip_code : string) (status : option string) :
  Forall (fun v => exists s, lookup "status" v = Some (PStr s))
         (_search_by_zip t zip_code status).
Proof.
  destruct (outage t) as [e|] eqn:O.
  - rewrite (_search_by_zip_outage t zip_code status e O). constructor.
  - rewrite _search_by_zip_answer by assumption. apply Forall_forall.
    intros v Hv. apply filter_In in Hv as [_ Hv].
    unfold zip_matches, in_zip_code_index in Hv.
    destruct (lookup "zip_code" v) as [[| | | | |z| |]|]; try discriminate.
    destruct (lookup "status" v) as [[| | | | |s| |]|]; try discriminate.
    now exists s.
Qed.

(** X18. Every summary [_get_summary] returns for a ZIP code with
    vehicles reports the number of matched records as [total_vehicles] and
    the exact-status counts as [available], [rented] and [maintenance];
    their sum never exceeds the total, and equals it exactly when every
    record has one of the three statuses. *)
Theorem summary_counts_never_exceed_total
    (t : fleet_table) (series_mean value_counts : list pyval -> outcome pyval)
    (round_ : pyval -> Z -> outcome pyval) (zip_code : string) (summary : pyval) :
  _get_summary t series_mean value_counts round_ zip_code = Return summary ->
  _search_by_zip t zip_code None <> [] ->
  (exists location categories avg,
     summary = PDict
       [("zip_code", PStr zip_code);
        ("location", location);
        ("total_vehicles", PInt (Z.of_nat (List.length (_search_by_zip t zip_code None))));
        ("available",
         PInt (Z.of_nat (with_status "available" (_search_by_zip t zip_code None))));
        ("rented",
         PInt (Z.of_nat (with_status "rented" (_search_by_zip t zip_code None))));
        ("maintenance",
         PInt (Z.of_nat (with_status "maintenance" (_search_by_zip t zip_code None))));
        ("categories", categories);
        ("avg_daily_rate", avg)])
  /\ (with_status "available" (_search_by_zip t zip_code None)
      + with_status "rented" (_search_by_zip t zip_code None)
      + with_status "maintenance" (_search_by_zip t zip_code None)
      <= List.length (_search_by_zip t zip_code None))%nat
  /\ ((with_status "available" (_search_by_zip t zip_code None)
       + with_status "rented" (_search_by_zip t zip_code None)
       + with_status "maintenance" (_search_by_zip t zip_code None)
       = List.length (_search_by_zip t zip_code None))%nat
      <-> Forall status_enumerated (_search_by_zip t zip_code None)).
Proof.
  intros Hsum Hne.
  pose proof (indexed_status_text t zip_code None) as Htext.
  destruct (status_counts_bound (_search_by_zip t zip_code None)) as [Hle Hiff].
  split; [ | split; assumption].
  unfold _get_summary in Hsum.
  destruct (_search_by_zip t zip_code None) as [|first rest]; [congruence | ].
  inversion Htext as [|? ? [s Hs] _]; subst.
  rewrite (column_present "status" first rest _ Hs) in Hsum. cbn [bind] in Hsum.
  rewrite !count_equal_with_status in Hsum by assumption.
  unbind. now eexists _, _, _.
Qed.

Lemma summary_counts_never_exceed_total_witness :
  (exists location categories avg,
     PDict [("zip_code", PStr "02101"); ("location", PStr "Boston, MA");
            ("total_vehicles", PInt 2); ("available", PInt 1);
            ("rented", PInt 1); ("maintenance", PInt 0);
            ("categories", PDict [("sedan", PInt 1); ("luxury", PInt 1)]);
            ("avg_daily_rate", PFloat "84.33")]
     = PDict
       [("zip_code", PStr "02101");
        ("location", location);
        ("total_vehicles",
         PInt (Z.of_nat (List.length (_search_by_zip sample_table "02101" None))));
        ("available",
         PInt (Z.of_nat (with_status "available" (_search_by_zip sample_table "02101" None))));
        ("rented",
         PInt (Z.of_nat (with_status "rented" (_search_by_zip sample_table "02101" None))));
        ("maintenance",
         PInt (Z.of_nat (with_status "maintenance" (_search_by_zip sample_table "02101" None))));
        ("categories", categories);
        ("avg_daily_rate", avg)])
  /\ (with_status "available" (_search_by_zip sample_table "02101" None)
      + with_status "rented" (_search_by_zip sample_table "02101" None)
      + with_status "maintenance" (_search_by_zip sample_table "02101" None)
      <= List.length (_search_by_zip sample_table "02101" None))%nat
  /\ ((with_status "available" (_search_by_zip sample_table "02101" None)
       + with_status "rented" (_search_by_zip sample_table "02101" None)
       + with_status "maintenance" (_search_by_zip sample_table "02101" None)
       = List.length (_search_by_zip sample_table "02101" None))%nat
      <-> Forall status_enumerated (_search_by_zip sample_table "02101" None)).
Proof.
  apply (summary_counts_never_exceed_total sample_table mean_sample counts_sample
           round_sample "02101").
  - reflexivity.
  - discriminate.
Defined.



End FleetQueries.

(* ===================================================================== *)
(** ** Grouping, failures and serialisation of the fleet tools *)
(* ===================================================================== *)

Module FleetGrouping.
Import Py Fixtures Shapes PyFacts ValueFacts FleetTools FleetFacts.

Local Open Scope list_scope.

Lemma existsb_eqb_In (k : string) (l : list string) :
  existsb (String.eqb k) l = true <-> In k l.
Proof.
  rewrite existsb_exists. split.
  - intros (x & Hx & E). apply String.eqb_eq in E. now subst.
  - intros H. exists k. split; [exact H | apply String.eqb_refl].
Qed.

Lemma see_In (seen : list string) (k x : string) :
  In x (see seen k) <-> In x seen \/ x = k.
Proof.
  unfold see. destruct (existsb (String.eqb k) seen) eqn:E.
  - apply existsb_eqb_In in E. split; [now left | intros [H | ->]; assumption].
  - rewrite in_app_iff. cbn. intuition.
Qed.

Lemma see_NoDup (seen : list string) (k : string) : NoDup seen -> NoDup (see seen k).
Proof.
  intros H. unfold see. destruct (existsb (String.eqb k) seen) eqn:E; [exact H | ].
  assert (Hk : ~ In k seen).
  { intros Hin. apply existsb_eqb_In in Hin. congruence. }
  clear E. induction H as [|x l Hx Hl IH]; cbn.
  - constructor; [intros [] | constructor].
  - constructor.
    + rewrite in_app_iff. cbn. intros [Hin | [-> | []]]; [now apply Hx | ].
      apply Hk. now left.
    + apply IH. intros Hin. apply Hk. now right.
Qed.

Lemma seen_from_In (l seen : list string) (x : string) :
  In x (fold_left see l seen) <-> In x seen \/ In x l.
Proof.
  revert seen. induction l as [|k l IH]; intros seen; cbn [fold_left].
  - cbn. intuition.
  - rewrite IH, see_In. cbn. intuition.
Qed.

Lemma seen_from_NoDup (l seen : list string) :
  NoDup seen -> NoDup (fold_left see l seen).
Proof.
  revert seen. induction l as [|k l IH]; intros seen H; cbn [fold_left];
    [exact H | now apply IH, see_NoDup].
Qed.

Lemma first_seen_snoc (l : list string) (k : string) :
  first_seen (l ++ [k]) = see (first_seen l) k.
Proof. unfold first_seen. now rewrite fold_left_app. Qed.

Lemma at_location_text (k : string) (v : dict) :
  at_location k v = true -> location_text v = k.
Proof.
  unfold at_location, location_text.
  destruct (lookup "location" v) as [[| | | | |s| |]|]; try discriminate.
  apply String.eqb_eq.
Qed.

Lemma filter_snoc {A} (f : A -> bool) (l : list A) (x : A) :
  filter f (l ++ [x]) = filter f l ++ (if f x then [x] else []).
Proof. rewrite filter_app. reflexivity. Qed.

(** Appending to the group of a key that is there. *)
Lemma append_at_present (loc : string) (v : dict) (seen : list dict) (keys : list string) :
  at_location loc v = true -> NoDup keys -> In loc keys ->
  append_at loc v (map (fun k => (k, filter (at_location k) seen)) keys)
  = map (fun k => (k, filter (at_location k) (seen ++ [v]))) keys.
Proof.
  intros Hv. apply at_location_text in Hv as Ht.
  assert (Hother : forall k, k <> loc -> at_location k v = false).
  { intros k Hk. destruct (at_location k v) eqn:E; [ | reflexivity].
    apply at_location_text in E. congruence. }
  induction keys as [|k keys IH]; intros Hnd Hin; [destruct Hin | ].
  apply NoDup_cons_iff in Hnd as [Hk Hnd']. cbn [map append_at].
  destruct (String.eqb_spec k loc) as [E | Hne].
  - subst k. rewrite filter_snoc, Hv. f_equal.
    apply map_ext_in. intros k' Hk'. rewrite filter_snoc, Hother, app_nil_r;
      [reflexivity | intros E; subst k'; contradiction].
  - destruct Hin as [E | Hin]; [contradiction | ].
    rewrite IH by assumption. rewrite filter_snoc, (Hother k Hne), app_nil_r.
    reflexivity.
Qed.

(** Appending under a key that is new. *)
Lemma append_at_absent (loc : string) (v : dict) (seen : list dict) (keys : list string) :
  at_location loc v = true -> ~ In loc keys ->
  filter (at_location loc) seen = [] ->
  append_at loc v (map (fun k => (k, filter (at_location k) seen)) keys)
  = map (fun k => (k, filter (at_location k) (seen ++ [v]))) (keys ++ [loc]).
Proof.
  intros Hv Hnot Hnone. apply at_location_text in Hv as Ht.
  assert (Hother : forall k, k <> loc -> at_location k v = false).
  { intros k Hk. destruct (at_location k v) eqn:E; [ | reflexivity].
    apply at_location_text in E. congruence. }
  induction keys as [|k keys IH]; cbn [map append_at app].
  - now rewrite filter_snoc, Hnone, Hv.
  - destruct (String.eqb_spec k loc) as [E | Hne]; [elim Hnot; now left | ].
    rewrite IH by (intros Hin; apply Hnot; now right).
    now rewrite filter_snoc, (Hother k Hne), app_nil_r.
Qed.

Lemma located_at (v : dict) :
  located v -> lookup "location" v = Some (PStr (location_text v))
               /\ at_location (location_text v) v = true.
Proof.
  intros [loc H]. unfold location_text, at_location. rewrite H.
  split; [reflexivity | apply String.eqb_refl].
Qed.

Lemma group_step (seen : list dict) (v : dict) :
  located v ->
  append_at (location_text v) v (groups_in_scan_order seen)
  = groups_in_scan_order (seen ++ [v]).
Proof.
  intros Hv. destruct (located_at v Hv) as [_ Hat].
  unfold groups_in_scan_order. rewrite map_app. cbn [map].
  rewrite first_seen_snoc. unfold see.
  destruct (existsb (String.eqb (location_text v))
              (first_seen (map location_text seen))) eqn:E.
  - apply append_at_present; [exact Hat | | now apply existsb_eqb_In].
    unfold first_seen. apply seen_from_NoDup. constructor.
  - assert (Hnot : ~ In (location_text v) (first_seen (map location_text seen))).
    { intros Hin. apply existsb_eqb_In in Hin. congruence. }
    apply append_at_absent; [exact Hat | exact Hnot | ].
    destruct (filter (at_location (location_text v)) seen) as [|w ws] eqn:F;
      [reflexivity | ].
    assert (Hw : In w (filter (at_location (location_text v)) seen))
      by (rewrite F; now left).
    apply filter_In in Hw as [Hin Hat']. apply at_location_text in Hat'.
    elim Hnot. unfold first_seen. apply seen_from_In. right.
    rewrite <- Hat'. now apply in_map.
Qed.

Lemma group_by_location_from (rest seen : list dict) :
  Forall located rest ->
  group_by_location rest (groups_in_scan_order seen)
  = Return (groups_in_scan_order (seen ++ rest)).
Proof.
  intros H. revert seen. induction H as [|v rest Hv _ IH]; intros seen.
  - now rewrite app_nil_r.
  - cbn [group_by_location].
    rewrite (location_of_located v (location_text v)) by (apply located_at, Hv).
    cbn [bind]. rewrite (group_step seen v Hv), IH, <- app_assoc. reflexivity.
Qed.

(** X20. The grouping loop of [search_vehicles_general] keeps the scan
    order: on located vehicles it returns one group per distinct location,
    the locations in the order they first appear in the scan, and each group
    holds exactly the vehicles of its location, in scan order. *)
Theorem by_location_keeps_scan_order (vehicles : list dict) :
  Forall located vehicles ->
  group_by_location vehicles [] = Return (groups_in_scan_order vehicles).
Proof. intros H. exact (group_by_location_from vehicles [] H). Qed.

Lemma by_location_keeps_scan_order_witness :
  group_by_location [crv; camry; bmw] []
  = Return (groups_in_scan_order [crv; camry; bmw]).
Proof.
  apply (by_location_keeps_scan_order [crv; camry; bmw]).
  repeat constructor; eexists; reflexivity.
Defined.

Example groups_of_sample :
  groups_in_scan_order [crv; camry; bmw]
  = [("Miami, FL", [crv]); ("Boston, MA", [camry; bmw])].
Proof. reflexivity. Qed.










End FleetGrouping.

(* ===================================================================== *)
(** ** More about the holiday and local-event tools *)
(* ===================================================================== *)

Module SignalProperties.
Import Py Fixtures Shapes PyFacts ValueFacts SignalTools.

Local Open Scope Z_scope.

Section Tools.
Variable now : nat -> datetime.
Variable requests_get_events : events_request -> outcome pyval.
Variable requests_get_holidays : Z -> outcome pyval.
Variable fromisoformat_month : string -> outcome Z.

Lemma failure_text (message collection : string) :
  json_dumps None None (failure_document message collection)
  = Return ("{" ++ json_string "error" ++ ": " ++ json_string message ++ ", "
            ++ json_string collection ++ ": []}")%string.
Proof.
  unfold json_dumps, failure_document. simpl. unfold json_string.
  rewrite !append_assoc. simpl. rewrite !append_assoc. reflexivity.
Qed.

Lemma local_events_caught (key : option string) (zip_code : string)
    (start_date end_date : option string) (size : Z) (api_key : string) (e : exn) :
  key_configured key = Some api_key ->
  get_local_events_try now requests_get_events api_key zip_code start_date end_date size
  = Raise e ->
  get_local_events key now requests_get_events zip_code start_date end_date size
  = json_dumps None None (failure_document (failure_message "events" e) "events").
Proof.
  intros Hkey H. unfold get_local_events. rewrite Hkey, H.
  unfold try_except, failure_message. destruct (exn_cls e); reflexivity.
Qed.

Lemma holidays_caught (year month : option Z) (e : exn) :
  get_national_holidays_try now requests_get_holidays fromisoformat_month year month
  = Raise e ->
  get_national_holidays now requests_get_holidays fromisoformat_month year month
  = json_dumps None None (failure_document (failure_message "holidays" e) "holidays").
Proof.
  intros H. unfold get_national_holidays. rewrite H.
  unfold try_except, failure_message. destruct (exn_cls e); reflexivity.
Qed.

End Tools.

(** X23. With both dates given and a configured key, [get_local_events]
    makes one request: postal code and country "US", the start date at
    00:00:00Z, the end date at 23:59:59Z, at most 200 results, sorted by
    ascending date.  Two runs whose services agree on that request return
    the same text, whatever their clocks and whatever size above the cap
    was asked. *)
Theorem local_events_request
    (key : option string) (now now' : nat -> datetime)
    (requests_get_events requests_get_events' : events_request -> outcome pyval)
    (api_key zip_code start_date end_date : string) (size : Z) :
  key_configured key = Some api_key ->
  requests_get_events
    (EventsRequest api_key zip_code "US" (start_date ++ "T00:00:00Z")
       (end_date ++ "T23:59:59Z") (Z.min size 200) "date,asc")
  = requests_get_events'
      (EventsRequest api_key zip_code "US" (start_date ++ "T00:00:00Z")
         (end_date ++ "T23:59:59Z") (Z.min size 200) "date,asc") ->
  get_local_events key now requests_get_events zip_code
    (Some start_date) (Some end_date) size
  = get_local_events key now' requests_get_events' zip_code
      (Some start_date) (Some end_date) (Z.min size 200).
Proof.
  intros Hkey H. unfold get_local_events. rewrite Hkey.
  unfold get_local_events_try, date_range.
  rewrite H. replace (Z.min (Z.min size 200) 200) with (Z.min size 200) by lia.
  reflexivity.
Qed.

Lemma local_events_request_witness :
  get_local_events (Some "key") clock_sample echo_end "90001"
    (Some "2026-12-24") (Some "2026-12-31") 500
  = get_local_events (Some "key") (fun _ => DateTime 1999 1 1 0 0 0) echo_end "90001"
      (Some "2026-12-24") (Some "2026-12-31") (Z.min 500 200).
Proof.
  apply (local_events_request (Some "key") clock_sample
           (fun _ => DateTime 1999 1 1 0 0 0) echo_end echo_end
           "key" "90001" "2026-12-24" "2026-12-31" 500); reflexivity.
Defined.

(** X24. When the events service answers a mapping without [_embedded],
    or whose [_embedded] is a mapping without [events], [get_local_events]
    returns the JSON text of a success document with count 0, no events and
    the message "No events found for ZIP code <zip>". *)
Theorem local_events_none_found
    (key : option string) (now : nat -> datetime)
    (requests_get_events : events_request -> outcome pyval)
    (api_key zip_code : string) (start_date end_date : option string) (size : Z)
    (answer : dict) :
  key_configured key = Some api_key ->
  (forall r, postalCode r = zip_code -> requests_get_events r = Return (PDict answer)) ->
  lookup "_embedded" answer = None \/
  (exists embedded, lookup "_embedded" answer = Some (PDict embedded) /\
                    lookup "events" embedded = None) ->
  get_local_events key now requests_get_events zip_code start_date end_date size
  = json_dumps None None
      (PDict [("zip_code", PStr zip_code); ("count", PInt 0); ("events", PList []);
              ("message", PStr ("No events found for ZIP code " ++ zip_code))]).
Proof.
  intros Hkey Hnet Hnone. unfold get_local_events. rewrite Hkey.
  unfold get_local_events_try.
  destruct (date_range now start_date end_date) as [s e].
  rewrite Hnet by reflexivity. cbn [bind has].
  assert (Htext : exists text,
    json_dumps None None
      (PDict [("zip_code", PStr zip_code); ("count", PInt 0); ("events", PList []);
              ("message", PStr ("No events found for ZIP code " ++ zip_code))])
    = Return text).
  { apply json_dumps_native. reflexivity. }
  destruct Htext as [text Htext].
  destruct Hnone as [H | (embedded & H & Hev)]; rewrite H; cbn [bind getitem has negb].
  - rewrite Htext. reflexivity.
  - rewrite H. cbn [bind has]. rewrite Hev. cbn [negb]. rewrite Htext. reflexivity.
Qed.

Lemma local_events_none_found_witness :
  get_local_events (Some "key") clock_sample quiet_week "90001" None None 20
  = json_dumps None None
      (PDict [("zip_code", PStr "90001"); ("count", PInt 0); ("events", PList []);
              ("message", PStr ("No events found for ZIP code " ++ "90001"))]).
Proof.
  apply (local_events_none_found (Some "key") clock_sample quiet_week "key" "90001"
           None None 20 [("page", PDict [("totalElements", PInt 0)])]).
  - reflexivity.
  - reflexivity.
  - left. reflexivity.
Defined.

(** X25. The two HTTP tools of the fleet module never raise: whatever the
    arguments, the clock and the services do, each returns JSON text, and
    when the body of its [try] raises, that text is the error document,
    worded "Failed to fetch ..." for a request failure and "Error: ..." for
    anything else, with an empty collection. *)
Theorem http_tools_turn_failures_into_documents
    (key : option string) (now : nat -> datetime)
    (requests_get_events : events_request -> outcome pyval)
    (requests_get_holidays : Z -> outcome pyval)
    (fromisoformat_month : string -> outcome Z)
    (zip_code : string) (start_date end_date : option string) (size : Z)
    (year month : option Z) :
  returns (get_local_events key now requests_get_events zip_code start_date end_date size)
  /\
  returns (get_national_holidays now requests_get_holidays fromisoformat_month year month)
  /\
  (forall api_key e,
      key_configured key = Some api_key ->
      get_local_events_try now requests_get_events api_key zip_code
        start_date end_date size = Raise e ->
      get_local_events key now requests_get_events zip_code start_date end_date size
      = Return ("{" ++ json_string "error" ++ ": "
                ++ json_string (failure_message "events" e) ++ ", "
                ++ json_string "events" ++ ": []}")%string)
  /\
  (forall e,
      get_national_holidays_try now requests_get_holidays fromisoformat_month
        year month = Raise e ->
      get_national_holidays now requests_get_holidays fromisoformat_month year month
      = Return ("{" ++ json_string "error" ++ ": "
                ++ json_string (failure_message "holidays" e) ++ ", "
                ++ json_string "holidays" ++ ": []}")%string).
Proof.
  split; [ | split; [ | split]].
  - unfold get_local_events, try_except.
    match goal with |- returns (match ?c with _ => _ end) => destruct c as [text|e] end.
    + apply returns_Return.
    + destruct (exn_cls e); simpl; apply returns_Return.
  - unfold get_national_holidays, try_except.
    match goal with |- returns (match ?c with _ => _ end) => destruct c as [text|e] end.
    + apply returns_Return.
    + destruct (exn_cls e); simpl; apply returns_Return.
  - intros api_key e Hkey H.
    rewrite (local_events_caught now requests_get_events key zip_code
               start_date end_date size api_key e Hkey H).
    apply failure_text.
  - intros e H.
    rewrite (holidays_caught now requests_get_holidays fromisoformat_month year month e H).
    apply failure_text.
Qed.

Lemma http_tools_turn_failures_into_documents_witness :
  get_local_events (Some "key") clock_sample echo_end "90001" None None 20
  = Return ("{" ++ json_string "error" ++ ": "
            ++ json_string (failure_message "events"
                 (Exn RequestException "2026-12-04T09:05:07Z")) ++ ", "
            ++ json_string "events" ++ ": []}")%string
  /\
  get_national_holidays clock_sample nager (fun s => Return (month_sample s))
    (Some 1999) None
  = Return ("{" ++ json_string "error" ++ ": "
            ++ json_string (failure_message "holidays"
                 (Exn RequestException "404 Client Error: Not Found")) ++ ", "
            ++ json_string "holidays" ++ ": []}")%string.
Proof.
  destruct (http_tools_turn_failures_into_documents (Some "key") clock_sample echo_end
              nager (fun s => Return (month_sample s)) "90001" None None 20
              (Some 1999) None) as (_ & _ & Hevents & Hholidays).
  split.
  - apply (Hevents "key"); reflexivity.
  - apply Hholidays. reflexivity.
Defined.

Lemma format_holiday_returns (h : pyval) :
  holiday_record h -> returns (format_holiday h).
Proof.
  intros (d & date & name & country & -> & Hd & Hn & Hc).
  unfold format_holiday. cbn [getitem get]. rewrite Hd, Hn, Hc. cbn [bind].
  apply returns_Return.
Qed.

Lemma format_holiday_native (h row : pyval) :
  json_native h = true -> format_holiday h = Return row -> json_native row = true.
Proof.
  intros N H. unfold format_holiday in H. unbind.
  repeat match goal with
         | H : getitem h _ = Return ?x |- _ =>
             pose proof (native_getitem _ _ _ N H); clear H
         end.
  repeat match goal with
         | H : get h _ ?dflt = Return ?x |- _ =>
             let M := fresh "M" in
             assert (M : json_native x = true)
               by (eapply (native_get h _ dflt); [exact N | first [assumption | reflexivity] | exact H]);
             clear H
         end.
  cbn [json_native forallb snd].
  repeat match goal with M : json_native _ = true |- _ => rewrite M; clear M end.
  reflexivity.
Qed.

Lemma native_mapM_in {A} (f : A -> outcome pyval) (l : list A) (ys : list pyval) :
  (forall x y, In x l -> f x = Return y -> json_native y = true) ->
  mapM f l = Return ys -> json_native (PList ys) = true.
Proof.
  revert ys. induction l as [|x l IH]; intros ys Hf H.
  - now injection H as <-.
  - cbn [mapM] in H. destruct (f x) as [y|] eqn:Fx; [ | discriminate].
    cbn [bind] in H. destruct (mapM f l) as [ys'|] eqn:M; [ | discriminate].
    injection H as <-. cbn [json_native forallb].
    rewrite (Hf x y (or_introl eq_refl) Fx).
    apply (IH ys'); [ | reflexivity]. intros x' y' Hx'. apply Hf. now right.
Qed.

Lemma filterM_filter {A} (f : A -> outcome bool) (g : A -> bool) (l : list A) :
  (forall x, In x l -> f x = Return (g x)) -> filterM f l = Return (filter g l).
Proof.
  induction l as [|x l IH]; intros H; [reflexivity | ].
  cbn [filterM filter]. rewrite (H x (or_introl eq_refl)). cbn [bind].
  rewrite IH by (intros y Hy; apply H; now right). reflexivity.
Qed.

Lemma in_month_record (fromisoformat_month : string -> outcome Z)
    (month_of : string -> Z) (m : Z) (h : pyval) :
  holiday_record h ->
  fromisoformat_month (holiday_date h) = Return (month_of (holiday_date h)) ->
  in_month fromisoformat_month m h = Return (month_of (holiday_date h) =? m).
Proof.
  intros (d & date & name & country & -> & Hd & _) H.
  unfold in_month, holiday_date in *. cbn [getitem]. rewrite Hd in *. cbn [bind].
  rewrite H. reflexivity.
Qed.

(** X26. When the holiday service lists holiday records, decoded from
    JSON, whose dates all parse, [get_national_holidays] returns the JSON
    text (indented by 2) of a document with the year (the clock's when none
    is given), the holidays whose month is the requested one (all of them
    without a month), each formatted, and their count.  The [month] field
    reads "all" when no month, or month 0, is given. *)
Theorem holidays_filtered_by_month
    (now : nat -> datetime) (requests_get_holidays : Z -> outcome pyval)
    (fromisoformat_month : string -> outcome Z) (month_of : string -> Z)
    (year month : option Z) (holidays : list pyval) :
  requests_get_holidays
    (match year with Some y => y | None => SignalTools.year (now 0%nat) end)
  = Return (PList holidays) ->
  Forall holiday_record holidays ->
  json_native (PList holidays) = true ->
  (forall h, In h holidays ->
     fromisoformat_month (holiday_date h) = Return (month_of (holiday_date h))) ->
  exists rows text,
    Forall2 (fun h row => format_holiday h = Return row)
            (in_month_of month_of month holidays) rows /\
    json_dumps None (Some 2%nat)
      (PDict [("year", PInt (match year with
                             | Some y => y
                             | None => SignalTools.year (now 0%nat)
                             end));
              ("month", month_field month);
              ("count", PInt (Z.of_nat (List.length (in_month_of month_of month holidays))));
              ("holidays", PList rows)]) = Return text /\
    get_national_holidays now requests_get_holidays fromisoformat_month year month
    = Return text.
Proof.
  intros Hnet Hrec Hnat Hparse.
  set (kept := in_month_of month_of month holidays).
  assert (Hkept : forall h, In h kept -> In h holidays).
  { unfold kept, in_month_of. destruct month; [ | trivial].
    intros h Hh. now apply filter_In in Hh. }
  assert (Hitems :
    match month with
    | Some m => (l <- iterate (PList holidays) ;; filterM (in_month fromisoformat_month m) l)
    | None => iterate (PList holidays)
    end = Return kept).
  { unfold kept, in_month_of. destruct month as [m|]; [ | reflexivity].
    cbn [iterate bind]. apply filterM_filter. intros h Hh.
    apply in_month_record; [ | now apply Hparse].
    rewrite Forall_forall in Hrec. now apply Hrec. }
  destruct (mapM_returns format_holiday kept) as [rows Hrows].
  { apply Forall_forall. intros h Hh. apply format_holiday_returns.
    rewrite Forall_forall in Hrec. now apply Hrec, Hkept. }
  assert (Hnative : json_native (PList rows) = true).
  { apply (native_mapM_in format_holiday kept rows); [ | exact Hrows].
    intros h row Hh Hrow. eapply format_holiday_native; [ | exact Hrow].
    cbn [json_native] in Hnat. rewrite forallb_forall in Hnat. now apply Hnat, Hkept. }
  destruct (json_dumps_native (Some 2%nat)
              (PDict [("year", PInt (match year with
                                     | Some y => y
                                     | None => SignalTools.year (now 0%nat)
                                     end));
                      ("month", month_field month);
                      ("count", PInt (Z.of_nat (List.length kept)));
                      ("holidays", PList rows)])) as [text Htext].
  { cbn [json_native forallb snd] in *. rewrite Hnative.
    unfold month_field. destruct month as [m|]; [destruct (m =? 0) | ]; reflexivity. }
  exists rows, text. split; [now apply mapM_Forall2 | ]. split; [exact Htext | ].
  unfold get_national_holidays, get_national_holidays_try.
  rewrite Hnet. cbn [bind]. rewrite Hitems. cbn [bind]. rewrite Hrows. cbn [bind].
  rewrite (mapM_length _ _ _ Hrows).
  unfold month_field in Htext. rewrite Htext. reflexivity.
Qed.

Lemma holidays_filtered_by_month_witness :
  exists rows text,
    Forall2 (fun h row => format_holiday h = Return row)
            (in_month_of month_sample (Some 7)
               [PDict [("date", PStr "2025-01-01"); ("name", PStr "New Year's Day");
                       ("countryCode", PStr "US")];
                PDict [("date", PStr "2025-07-04"); ("name", PStr "Independence Day");
                       ("localName", PStr "Independence Day"); ("countryCode", PStr "US");
                       ("global", PBool true)];
                PDict [("date", PStr "2025-12-25"); ("name", PStr "Christmas Day");
                       ("countryCode", PStr "US")]]) rows /\
    json_dumps None (Some 2%nat)
      (PDict [("year", PInt 2025);
              ("month", month_field (Some 7));
              ("count", PInt (Z.of_nat (List.length (in_month_of month_sample (Some 7)
                 [PDict [("date", PStr "2025-01-01"); ("name", PStr "New Year's Day");
                         ("countryCode", PStr "US")];
                  PDict [("date", PStr "2025-07-04"); ("name", PStr "Independence Day");
                         ("localName", PStr "Independence Day"); ("countryCode", PStr "US");
                         ("global", PBool true)];
                  PDict [("date", PStr "2025-12-25"); ("name", PStr "Christmas Day");
                         ("countryCode", PStr "US")]]))));
              ("holidays", PList rows)]) = Return text /\
    get_national_holidays clock_sample nager (fun s => Return (month_sample s))
      (Some 2025) (Some 7)
    = Return text.
Proof.
  apply (holidays_filtered_by_month clock_sample nager (fun s => Return (month_sample s))
           month_sample (Some 2025) (Some 7)).
  - reflexivity.
  - repeat constructor; do 4 eexists; repeat split; reflexivity.
  - reflexivity.
  - reflexivity.
Defined.

Example holidays_of_july :
  in_month_of month_sample (Some 7)
    [PDict [("date", PStr "2025-01-01")]; PDict [("date", PStr "2025-07-04")]]
  = [PDict [("date", PStr "2025-07-04")]].
Proof. reflexivity. Qed.

End SignalProperties.
